(** * The zarr driver of TensorStore: chunk keys, metadata and fill values

    A shallow embedding of [tensorstore/driver/zarr/driver.cc].  Integers of
    type [Index] and [DimensionIndex] are 64-bit signed in the source; they
    are [Z] here.  The only arithmetic on them in the functions below is
    [kInfIndex + 1] and the difference of two ranks, neither of which leaves
    the 64-bit range for the constants of the library. *)

From Stdlib Require Import ZArith Lia Ascii DecimalString DecimalZ DecimalPos.
From stdpp Require Import base strings list.

Local Open Scope Z_scope.
Set Default Proof Using "Type".

(** ** Scalars and errors *)

Abbreviation Index := Z (only parsing).
Abbreviation DimensionIndex := Z (only parsing).

Inductive DimensionSeparator := kDotSeparated | kSlashSeparated.

#[global] Instance DimensionSeparator_eq_dec : EqDecision DimensionSeparator.
Proof. solve_decision. Defined.

Inductive ContiguousLayoutOrder := c_order | fortran_order.

#[global] Instance ContiguousLayoutOrder_eq_dec : EqDecision ContiguousLayoutOrder.
Proof. solve_decision. Defined.

(** The canonical status codes of [absl::Status]. *)
Inductive StatusCode :=
  | kOk | kCancelled | kUnknown | kInvalidArgument | kDeadlineExceeded
  | kNotFound | kAlreadyExists | kPermissionDenied | kResourceExhausted
  | kFailedPrecondition | kAborted | kOutOfRange | kUnimplemented
  | kInternal | kUnavailable | kDataLoss | kUnauthenticated.

#[global] Instance StatusCode_eq_dec : EqDecision StatusCode.
Proof. solve_decision. Defined.

Record Status := { code : StatusCode; message : string }.

#[global] Instance Status_eq_dec : EqDecision Status.
Proof. solve_decision. Defined.

Definition OkStatus : Status := {| code := kOk; message := "" |}.
Definition InvalidArgumentError (msg : string) : Status :=
  {| code := kInvalidArgument; message := msg |}.
Definition FailedPreconditionError (msg : string) : Status :=
  {| code := kFailedPrecondition; message := msg |}.
Definition AlreadyExistsError (msg : string) : Status :=
  {| code := kAlreadyExists; message := msg |}.

(** [tensorstore::Result<T>]: a value or an error status. *)
Inductive Result (T : Type) :=
  | Value (v : T)
  | Error (status : Status).
Arguments Value {T} v.
Arguments Error {T} status.

(** A run of a function that contains [assert]s or unchecked accesses:
    [Aborted] stands for a failed assertion and for an access outside a
    vector or array, where the source yields no result at all. *)
Inductive Checked (T : Type) :=
  | Done (v : T)
  | Aborted.
Arguments Done {T} v.
Arguments Aborted {T}.

#[global] Instance Checked_ret : MRet Checked := λ T v, Done v.
#[global] Instance Checked_bind : MBind Checked := λ A B f m,
  match m with Done v => f v | Aborted => Aborted end.

Definition of_option {T} (o : option T) : Checked T :=
  match o with Some v => Done v | None => Aborted end.

(** [assert(b)] followed by the rest of the function. *)
Definition assert {T} (b : bool) (rest : Checked T) : Checked T :=
  if b then rest else Aborted.

(** ** The standard algorithms the driver calls, on lists

    [first] is the position in [dst] of the output iterator.  Writing past
    the end of [dst] has no result. *)
Module std.
Definition fill {A} (dst : list A) (v : A) : list A :=
  replicate (length dst) v.

Definition fill_n {A} (dst : list A) (first n : nat) (v : A)
  : option (list A) :=
  if decide (first + n ≤ length dst)%nat
  then Some (take first dst ++ replicate n v ++ drop (first + n) dst)
  else None.

Definition copy {A} (src dst : list A) (first : nat) : option (list A) :=
  if decide (first + length src ≤ length dst)%nat
  then Some (take first dst ++ src ++ drop (first + length src) dst)
  else None.

Definition iota (dst : list Z) (value : Z) : list Z :=
  (λ i, value + Z.of_nat i) <$> seq 0 (length dst).
End std.

(** Element [i] of a vector for a signed index [i], and the vector after
    [v[i] = x]; outside the vector there is no result. *)
Definition at_index {A} (v : list A) (i : DimensionIndex) : option A :=
  if decide (0 ≤ i) then v !! Z.to_nat i else None.

Definition write_at {A} (v : list A) (i : DimensionIndex) (x : A)
  : option (list A) :=
  if decide (0 ≤ i < Z.of_nat (length v))
  then Some (<[Z.to_nat i := x]> v) else None.

(** ** Arrays, metadata and the driver's objects

    The declarations are in headers that are not among the sources
    ([array.h], [metadata.h], [spec.h]); the records below carry the members
    that driver.cc reads and writes, which are those the data model of the
    specification lists (rank, shape, chunk shape, dtype and fields,
    compressor and filters, fill values, storage order, dimension
    separator). *)

Abbreviation DataType := string (only parsing).

(** [SharedArray<const void>]: a data pointer (absent when null), the element
    type and a strided layout. *)
Record SharedArray := {
  array_data : option N;
  array_dtype : option DataType;
  array_shape : list Index;
  array_byte_strides : list Index;
}.

#[global] Instance SharedArray_eq_dec : EqDecision SharedArray.
Proof. solve_decision. Defined.

(** [Array::valid]: the data pointer is not null. *)
Definition valid (a : SharedArray) : bool :=
  match array_data a with Some _ => true | None => false end.

Definition array_rank (a : SharedArray) : DimensionIndex :=
  Z.of_nat (length (array_shape a)).

(** A default-constructed array: null data, no element type, rank zero. *)
Definition null_array : SharedArray :=
  {| array_data := None; array_dtype := None;
     array_shape := []; array_byte_strides := [] |}.

Record ZarrDTypeField := {
  field_dtype : DataType;
  field_shape : list Index;
}.

#[global] Instance ZarrDTypeField_eq_dec : EqDecision ZarrDTypeField.
Proof. solve_decision. Defined.

Record ZarrDType := { fields : list ZarrDTypeField }.

#[global] Instance ZarrDType_eq_dec : EqDecision ZarrDType.
Proof. solve_decision. Defined.

Record ZarrChunkLayoutField := { full_chunk_shape : list Index }.
Record ZarrChunkLayout := { layout_fields : list ZarrChunkLayoutField }.

(** A compressor is named by its registered identifier; [None] is the null
    compressor. *)
Abbreviation Compressor := (option string) (only parsing).

Record ZarrMetadata := {
  rank : DimensionIndex;
  zarr_format : Z;
  shape : list Index;
  chunks : list Index;
  dtype : ZarrDType;
  compressor : Compressor;
  order : ContiguousLayoutOrder;
  filters : unit;
  fill_value : list SharedArray;
  dimension_separator : option DimensionSeparator;
  chunk_layout : ZarrChunkLayout;
}.

(** [metadata.shape = new_shape] on a copy of [metadata]. *)
Definition set_shape (metadata : ZarrMetadata) (new_shape : list Index)
  : ZarrMetadata :=
  {| rank := rank metadata; zarr_format := zarr_format metadata;
     shape := new_shape; chunks := chunks metadata; dtype := dtype metadata;
     compressor := compressor metadata; order := order metadata;
     filters := filters metadata; fill_value := fill_value metadata;
     dimension_separator := dimension_separator metadata;
     chunk_layout := chunk_layout metadata |}.

Record ZarrPartialMetadata := {
  pm_rank : DimensionIndex;
  pm_zarr_format : option Z;
  pm_shape : option (list Index);
  pm_chunks : option (list Index);
  pm_dtype : option ZarrDType;
  pm_compressor : option Compressor;
  pm_order : option ContiguousLayoutOrder;
  pm_filters : option unit;
  pm_fill_value : option (list SharedArray);
  pm_dimension_separator : option DimensionSeparator;
}.

(** [pm.dimension_separator = sep] on [pm]. *)
Definition set_dimension_separator (pm : ZarrPartialMetadata)
    (sep : option DimensionSeparator) : ZarrPartialMetadata :=
  {| pm_rank := pm_rank pm; pm_zarr_format := pm_zarr_format pm;
     pm_shape := pm_shape pm; pm_chunks := pm_chunks pm;
     pm_dtype := pm_dtype pm; pm_compressor := pm_compressor pm;
     pm_order := pm_order pm; pm_filters := pm_filters pm;
     pm_fill_value := pm_fill_value pm; pm_dimension_separator := sep |}.

Abbreviation SelectedField := string (only parsing).

Record Schema := {
  schema_rank : DimensionIndex;
  schema_dtype : option DataType;
  schema_fill_value : SharedArray;
}.

(** [ZarrDriver::SpecData], driver.cc:105, with the path of its [store]. *)
Record SpecData := {
  store_path : string;
  schema : Schema;
  partial_metadata : ZarrPartialMetadata;
  selected_field : SelectedField;
}.

Definition set_partial_metadata (spec : SpecData) (pm : ZarrPartialMetadata)
  : SpecData :=
  {| store_path := store_path spec; schema := schema spec;
     partial_metadata := pm; selected_field := selected_field spec |}.

(** [DataCache], driver.cc:239, and the driver that refers to it. *)
Record DataCache := {
  initial_metadata_ : ZarrMetadata;
  key_prefix_ : string;
  dimension_separator_ : DimensionSeparator;
}.

Record ZarrDriver := {
  cache : DataCache;
  component_index : nat;
}.

(** A component of [internal::ChunkGridSpecification], as driver.cc:340
    constructs it: the fill value of a chunk, the rank of the bounds of the
    component, which the source leaves unbounded ([Box<>(cell_rank)]), and
    the cell dimension of each chunked dimension. *)
Record Component := {
  component_fill_value : SharedArray;
  component_bounds_rank : DimensionIndex;
  chunked_to_cell_dimensions : list DimensionIndex;
}.

(** [MutableBoxView<>]: origin and shape vectors of one rank. *)
Record Box := {
  box_origin : list Index;
  box_shape : list Index;
}.

Definition box_rank (b : Box) : DimensionIndex :=
  Z.of_nat (length (box_origin b)).

(** ** Chunk keys *)

(** [GetDimensionSeparatorChar], driver.cc:44. *)
Definition GetDimensionSeparatorChar (dimension_separator : DimensionSeparator)
  : ascii :=
  if decide (dimension_separator = kDotSeparated) then "."%char else "/"%char.

(** What [StrAppend] and [StrCat] write for an integer argument: its decimal
    numeral, with a leading minus sign when negative. *)
Definition AlphaNum (i : Index) : string :=
  NilZero.string_of_int (Z.to_int i).

(** The loop of [EncodeChunkIndices], driver.cc:483: [i] is the loop counter,
    [rest] the indices from position [i] on, [key] the string built so far. *)
Fixpoint EncodeChunkIndices_loop (separator : ascii) (i : nat)
    (rest : list Index) (key : string) : string :=
  match rest with
  | [] => key
  | index :: rest' =>
      EncodeChunkIndices_loop separator (S i) rest'
        (if decide (i ≠ 0%nat)
         then key +:+ String separator (AlphaNum index)
         else key +:+ AlphaNum index)
  end.

(** [EncodeChunkIndices], driver.cc:479. *)
Definition EncodeChunkIndices (indices : list Index)
    (dimension_separator : DimensionSeparator) : string :=
  let separator := GetDimensionSeparatorChar dimension_separator in
  EncodeChunkIndices_loop separator 0 indices "".

(** The reading of the key that the specification gives: the numerals of the
    indices joined by the separator character. *)
Definition join_indices (separator : ascii) (indices : list Index) : string :=
  String.concat (String separator "") (AlphaNum <$> indices).

(** Reverse of the join.  [split_on c s] cuts [s] at every occurrence of
    [c]; it always yields at least one piece. *)
Fixpoint split_on (c : ascii) (s : string) : list string :=
  match s with
  | EmptyString => [EmptyString]
  | String a s' =>
      if decide (a = c) then EmptyString :: split_on c s'
      else match split_on c s' with
           | piece :: pieces => String a piece :: pieces
           | [] => [String a EmptyString]
           end
  end.

(** A piece read as a decimal numeral. *)
Definition parse_index (piece : string) : option Index :=
  Z.of_int <$> NilZero.int_of_string piece.

(** The empty string is the key of the tuple of rank zero; any other string
    is cut at the separators and each piece read as a decimal numeral. *)
Definition DecodeChunkIndices (s : string)
    (dimension_separator : DimensionSeparator) : option (list Index) :=
  if decide (s = "") then Some []
  else mapM parse_index (split_on (GetDimensionSeparatorChar dimension_separator) s).

(** [strip_prefix p s] is the rest of [s] after the prefix [p], if [s] starts
    with [p]. *)
Fixpoint strip_prefix (p s : string) : option string :=
  match p, s with
  | EmptyString, _ => Some s
  | String a p', String b s' => if decide (a = b) then strip_prefix p' s' else None
  | String _ _, EmptyString => None
  end.

(** [occurs c s]: the character [c] is one of the characters of [s]. *)
Fixpoint occurs (c : ascii) (s : string) : bool :=
  match s with
  | EmptyString => false
  | String a s' => bool_decide (a = c) || occurs c s'
  end.

(** [DataCache::GetChunkStorageKey], driver.cc:363.  The [metadata] argument
    is not used by the source. *)
Definition GetChunkStorageKey (self : DataCache) (metadata : ZarrMetadata)
    (cell_indices : list Index) : string :=
  key_prefix_ self +:+ EncodeChunkIndices cell_indices (dimension_separator_ self).

(** Reading a chunk key back: drop the prefix of the cache, then reverse the
    join. *)
Definition DecodeChunkStorageKey (self : DataCache) (key : string)
  : option (list Index) :=
  suffix ← strip_prefix (key_prefix_ self) key;
  DecodeChunkIndices suffix (dimension_separator_ self).

(** ** The dimension separator in force *)

(** [GetDimensionSeparator], driver.cc:48. *)
Definition GetDimensionSeparator (partial_metadata : ZarrPartialMetadata)
    (metadata : ZarrMetadata) : DimensionSeparator :=
  match dimension_separator metadata with
  | Some sep => sep
  | None =>
      match pm_dimension_separator partial_metadata with
      | Some sep => sep
      | None => kDotSeparated
      end
  end.

(** [ZarrDriver::OpenState::GetDataCache], driver.cc:453: the cache made for
    [spec] from the metadata of the initializer. *)
Definition GetDataCache (spec : SpecData) (initializer_metadata : ZarrMetadata)
  : DataCache :=
  let metadata := initializer_metadata in
  {| initial_metadata_ := initializer_metadata;
     key_prefix_ := store_path spec;
     dimension_separator_ :=
       GetDimensionSeparator (partial_metadata spec) metadata |}.

(** ** Grid bounds *)

(** [DataCache::GetChunkGridBounds], driver.cc:268.  The three output
    arguments are passed in and returned. *)
Definition GetChunkGridBounds (metadata : ZarrMetadata) (bounds : Box)
    (implicit_lower_bounds implicit_upper_bounds : list bool)
  : Checked (Box * list bool * list bool) :=
  assert (bool_decide (box_rank bounds = Z.of_nat (length (shape metadata)))) $
  assert (bool_decide (box_rank bounds = Z.of_nat (length implicit_lower_bounds))) $
  assert (bool_decide (box_rank bounds = Z.of_nat (length implicit_upper_bounds))) $
  let origin := std.fill (box_origin bounds) 0 in
  new_shape ← of_option (std.copy (shape metadata) (box_shape bounds) 0);
  let implicit_lower_bounds := std.fill implicit_lower_bounds false in
  let implicit_upper_bounds := std.fill implicit_upper_bounds true in
  Done ({| box_origin := origin; box_shape := new_shape |},
        implicit_lower_bounds, implicit_upper_bounds).

(** Double quote, for the messages that contain one. *)
Definition dquote : string := String "034"%char "".

(** ** Sample values *)

(** A store as in the scenario of the specification: rank two, shape
    [[4;4]], chunks [[2;2]], one float32 field, and stand-ins for what the
    driver takes from the rest of the library. *)
Module Sample.
Definition float32_field : ZarrDTypeField :=
  {| field_dtype := "<f4"; field_shape := [] |}.

Definition metadata : ZarrMetadata :=
  {| rank := 2; zarr_format := 2; shape := [4; 4]; chunks := [2; 2];
     dtype := {| fields := [float32_field] |};
     compressor := None; order := c_order; filters := ();
     fill_value := [null_array]; dimension_separator := None;
     chunk_layout :=
       {| layout_fields := [ {| full_chunk_shape := [2; 2] |} ] |} |}.

Definition other_chunks : ZarrMetadata :=
  {| rank := 2; zarr_format := 2; shape := [4; 4]; chunks := [4; 4];
     dtype := {| fields := [float32_field] |};
     compressor := None; order := c_order; filters := ();
     fill_value := [null_array]; dimension_separator := None;
     chunk_layout :=
       {| layout_fields := [ {| full_chunk_shape := [4; 4] |} ] |} |}.

Definition no_metadata : ZarrPartialMetadata :=
  {| pm_rank := -1; pm_zarr_format := None; pm_shape := None;
     pm_chunks := None; pm_dtype := None; pm_compressor := None;
     pm_order := None; pm_filters := None; pm_fill_value := None;
     pm_dimension_separator := None |}.

Definition with_shape : ZarrPartialMetadata :=
  {| pm_rank := 2; pm_zarr_format := None; pm_shape := Some [4; 4];
     pm_chunks := Some [2; 2]; pm_dtype := None; pm_compressor := None;
     pm_order := None; pm_filters := None; pm_fill_value := None;
     pm_dimension_separator := Some kSlashSeparated |}.

(** A fill value of rank one with three elements. *)
Definition vector_fill : SharedArray :=
  {| array_data := Some 4096%N; array_dtype := Some "<f4";
     array_shape := [3]; array_byte_strides := [4] |}.

Definition spec : SpecData :=
  {| store_path := "array/";
     schema := {| schema_rank := 2; schema_dtype := Some "float32";
                  schema_fill_value := vector_fill |};
     partial_metadata := no_metadata; selected_field := "" |}.

Definition spec_with_shape : SpecData :=
  {| store_path := "array/";
     schema := {| schema_rank := 2; schema_dtype := Some "float32";
                  schema_fill_value := null_array |};
     partial_metadata := with_shape; selected_field := "" |}.

Definition data_cache : DataCache :=
  {| initial_metadata_ := metadata; key_prefix_ := "array/";
     dimension_separator_ := kSlashSeparated |}.

Definition driver : ZarrDriver :=
  {| cache := data_cache; component_index := 0 |}.

Definition kImplicit : Index := -9223372036854775808.
Definition kInfIndex : Index := 4611686018427387903.
Definition kMaxRank : nat := 32.

(** A JSON stand-in that keeps the shape only, written as numerals
    between commas. *)
Definition json_dump (j : list Index) : string :=
  String.concat "," (AlphaNum <$> j).
Definition json_parse (s : string) : option (list Index) :=
  mapM parse_index (split_on "," s).
Definition to_json (m : ZarrMetadata) : list Index := shape m.
Definition FromJson (j : list Index) : Result ZarrMetadata :=
  if decide (length j = 2%nat) then Value (set_shape metadata j)
  else Error (InvalidArgumentError "shape of rank 2 expected").

Definition GetFieldIndex (d : ZarrDType) (name : SelectedField)
  : Result nat := Value 0%nat.
Definition GetNewMetadata (pm : ZarrPartialMetadata) (name : SelectedField)
    (s : Schema) : Result ZarrMetadata :=
  match pm_shape pm with
  | Some new_shape => Value (set_shape metadata new_shape)
  | None => Error (InvalidArgumentError "shape must be specified")
  end.
Definition MaybeAnnotateStatus (status : Status) (annotation : string)
  : Status :=
  {| code := code status;
     message := annotation +:+ ": " +:+ message status |}.

(** Transforms reduced to validity and output rank; domains to their
    shape. *)
Definition transform_valid (t : bool * DimensionIndex) : bool := t.1.
Definition output_rank (t : bool * DimensionIndex) : DimensionIndex := t.2.
Definition IndexDomain_of_shape (s : list Index) : list Index := s.
Definition IndexDomainBuilder_shape (n : nat) : list Index := replicate n 0.
Definition IndexDomainBuilder_Finalize (n : nat) (s : list Index)
  : Result (list Index) := Value s.
Definition TransformOutputBroadcastableArray (t : bool * DimensionIndex)
    (a : SharedArray) (domain : list Index) : Result SharedArray :=
  Value a.
Definition uninitialized (n : nat) : list Index := replicate n (-1).

(** A store whose only field is a vector of three float32 values, with a
    stored fill value, and one whose fill value has a dimension more than
    its field. *)
Definition vector_field : ZarrDTypeField :=
  {| field_dtype := "<f4"; field_shape := [3] |}.

Definition vector_metadata : ZarrMetadata :=
  {| rank := 2; zarr_format := 2; shape := [4; 4]; chunks := [2; 2];
     dtype := {| fields := [vector_field] |};
     compressor := None; order := c_order; filters := ();
     fill_value := [vector_fill]; dimension_separator := None;
     chunk_layout :=
       {| layout_fields := [ {| full_chunk_shape := [2; 2; 3] |} ] |} |}.

Definition misfit_metadata : ZarrMetadata :=
  {| rank := 2; zarr_format := 2; shape := [4; 4]; chunks := [2; 2];
     dtype := {| fields := [float32_field] |};
     compressor := None; order := c_order; filters := ();
     fill_value := [vector_fill]; dimension_separator := None;
     chunk_layout :=
       {| layout_fields := [ {| full_chunk_shape := [2; 2] |} ] |} |}.

Definition vector_driver : ZarrDriver :=
  {| cache := {| initial_metadata_ := vector_metadata;
                 key_prefix_ := "array/";
                 dimension_separator_ := kDotSeparated |};
     component_index := 0 |}.

Definition dynamic_rank : DimensionIndex := -1.
Definition minimal_spec (options : bool) : bool := options.
Definition Base_ApplyOptions (s : SpecData) (options : bool)
  : Status * SpecData := (OkStatus, s).
Definition EncodeSelectedField (component : nat) (d : ZarrDType)
  : SelectedField := "".
Definition EncodeCacheKey (path : string) (sep : DimensionSeparator)
    (m : ZarrMetadata) : string :=
  String (GetDimensionSeparatorChar sep) path.
Definition AllocateArray_data (element_type : DataType) : N := 8192%N.

(** A registered driver reduced to the path it serves, which is also its
    bound spec; the driver without a path has no bound spec. *)
Definition Derived_GetBoundSpecData (driver_path : string) (data : string)
  : Status * string :=
  if decide (driver_path = "")
  then (FailedPreconditionError "driver is not open", data)
  else (OkStatus, driver_path).
Definition Derived_EncodeCacheKey (out data : string) : string :=
  out +:+ data.
Definition EncodeCacheKey_typeid (out : string) : string :=
  out +:+ "memory:".
Definition Driver_EncodeCacheKey (driver_path out : string) : string :=
  out +:+ "object".
End Sample.

Section Driver.

(** ** What driver.cc takes from the rest of the library

    Constants of [index.h] and [rank.h]. *)
Variable kImplicit : Index.
Variable kInfIndex : Index.
Variable kMaxRank : nat.

(** [nlohmann::json]: the type of JSON values, [parse] without exceptions
    ([None] is the discarded value) and [dump]. *)
Context {json : Type}.
Variable json_parse : string → option json.
Variable json_dump : json → string.

(** Modelled from the spec: the JSON conversions of [ZarrMetadata] and of
    [DimensionSeparator] are defined in metadata.cc, which is not among the
    sources.  The specification treats the encoded metadata as an opaque
    encoding and says nothing of its grammar; the conversions are
    parameters. *)
Variable ZarrMetadata_to_json : ZarrMetadata → json.
Variable ZarrMetadata_FromJson : json → Result ZarrMetadata.
Variable DimensionSeparator_to_json : DimensionSeparator → json.

(** [GetFieldIndex] and [GetNewMetadata] of [spec.h] and [metadata.h], and
    [MaybeAnnotateStatus] of [util/status.h]. *)
Variable GetFieldIndex : ZarrDType → SelectedField → Result nat.
Variable GetNewMetadata :
  ZarrPartialMetadata → SelectedField → Schema → Result ZarrMetadata.
Variable MaybeAnnotateStatus : Status → string → Status.

(** Index transforms and domains, and the broadcast of
    [transform_broadcastable_array.h]. *)
Context {IndexTransformView IndexDomain : Type}.
Variable transform_valid : IndexTransformView → bool.
Variable output_rank : IndexTransformView → DimensionIndex.
Variable IndexDomain_of_shape : list Index → IndexDomain.
Variable IndexDomainBuilder_shape : nat → list Index.
Variable IndexDomainBuilder_Finalize : nat → list Index → Result IndexDomain.
Variable TransformOutputBroadcastableArray :
  IndexTransformView → SharedArray → IndexDomain → Result SharedArray.

(** The contents of a local array of the given size before anything is
    written to it. *)
Variable uninitialized : nat → list Index.

(** ** Metadata encoding *)

(** [ParseEncodedMetadata], driver.cc:58. *)
Definition ParseEncodedMetadata (encoded_value : string) : Result ZarrMetadata :=
  match json_parse encoded_value with
  | None => Error (FailedPreconditionError "Invalid JSON")
  | Some raw_data =>
      match ZarrMetadata_FromJson raw_data with
      | Error status => Error status
      | Value metadata => Value metadata
      end
  end.

(** [MetadataCache::DecodeMetadata], driver.cc:79. *)
Definition DecodeMetadata (entry_key : string) (encoded_metadata : string)
  : Result ZarrMetadata :=
  ParseEncodedMetadata encoded_metadata.

(** [MetadataCache::EncodeMetadata], driver.cc:84. *)
Definition EncodeMetadata (entry_key : string) (metadata : ZarrMetadata)
  : Result string :=
  Value (json_dump (ZarrMetadata_to_json metadata)).

(** ** Compatibility of metadata *)

(** Modelled from the spec: [IsMetadataCompatible] is defined in metadata.cc,
    which is not among the sources.  Two metadata values are compatible when
    they agree on rank, chunk shape and field layout; the shape extents are
    not compared. *)
Definition IsMetadataCompatible (a b : ZarrMetadata) : bool :=
  bool_decide (rank a = rank b ∧ chunks a = chunks b ∧ dtype a = dtype b).

(** [DataCache::ValidateMetadataCompatibility], driver.cc:251.  The two
    assertions of the source say that the pointers are not null. *)
Definition ValidateMetadataCompatibility
    (existing_metadata new_metadata : ZarrMetadata) : Status :=
  if IsMetadataCompatible existing_metadata new_metadata then OkStatus
  else FailedPreconditionError
         ("Updated zarr metadata " +:+
          json_dump (ZarrMetadata_to_json new_metadata) +:+
          " is incompatible with existing metadata " +:+
          json_dump (ZarrMetadata_to_json existing_metadata)).

(** ** Resizing *)

(** Modelled from the spec: [ExplicitIndexOr] is declared in index.h, which
    is not among the sources; an index that is the sentinel (unspecified)
    stands for the default. *)
Definition ExplicitIndexOr (value default_value : Index) : Index :=
  if decide (value = kImplicit) then default_value else value.

(** The extent that the specification gives a dimension after a resize: the
    old one when the new exclusive maximum is the sentinel. *)
Definition resized_extent (old_size new_size : Index) : Index :=
  if decide (new_size = kImplicit) then old_size else new_size.

(** The loop of [GetResizedMetadata], driver.cc:291, with [n] iterations
    left from counter [i]; [new_shape] is [new_metadata->shape]. *)
Fixpoint GetResizedMetadata_loop (n i : nat)
    (new_inclusive_min new_exclusive_max new_shape : list Index)
  : Checked (list Index) :=
  match n with
  | O => Done new_shape
  | S n' =>
      inclusive_min ← of_option (new_inclusive_min !! i);
      assert (bool_decide (ExplicitIndexOr inclusive_min 0 = 0)) $
      new_size ← of_option (new_exclusive_max !! i);
      if decide (new_size = kImplicit)
      then GetResizedMetadata_loop n' (S i)
             new_inclusive_min new_exclusive_max new_shape
      else GetResizedMetadata_loop n' (S i)
             new_inclusive_min new_exclusive_max (<[i := new_size]> new_shape)
  end.

(** [DataCache::GetResizedMetadata], driver.cc:283. *)
Definition GetResizedMetadata (existing_metadata : ZarrMetadata)
    (new_inclusive_min new_exclusive_max : list Index)
  : Checked (Result ZarrMetadata) :=
  let new_metadata := existing_metadata in
  let rank := length (shape new_metadata) in
  assert (bool_decide (rank = length new_inclusive_min)) $
  assert (bool_decide (rank = length new_exclusive_max)) $
  new_shape ← GetResizedMetadata_loop rank 0
                new_inclusive_min new_exclusive_max (shape new_metadata);
  Done (Value (set_shape new_metadata new_shape)).

(** ** The deprecated [key_encoding] member *)

(** The function given to [jb::Compose] for the member ["key_encoding"],
    driver.cc:136, when loading: [value] is the separator read from the
    member, [obj] the spec whose ["metadata"] member has been loaded before.
    The spec is returned with the status. *)
Definition json_binder_key_encoding (obj : SpecData) (value : DimensionSeparator)
  : Status * SpecData :=
  let sep := pm_dimension_separator (partial_metadata obj) in
  let assigned :=
    set_partial_metadata obj
      (set_dimension_separator (partial_metadata obj) (Some value)) in
  match sep with
  | Some sep_value =>
      if decide (sep_value ≠ value)
      then (InvalidArgumentError
              ("value (" +:+ json_dump (DimensionSeparator_to_json value) +:+
               ") does not match value in metadata (" +:+
               json_dump (DimensionSeparator_to_json sep_value) +:+ ")"),
            obj)
      else (OkStatus, assigned)
  | None => (OkStatus, assigned)
  end.

(** ** Fill values *)

(** The fill value that [SpecGetFillValue] works on, driver.cc:189-197: the
    one of the schema, unless the partial metadata has both a dtype and fill
    values. *)
Definition SpecGetFillValue_fill_value (spec : SpecData)
  : Checked (Result SharedArray) :=
  let fill_value := schema_fill_value (schema spec) in
  let metadata := partial_metadata spec in
  match pm_dtype metadata, pm_fill_value metadata with
  | Some metadata_dtype, Some metadata_fill_value =>
      match GetFieldIndex metadata_dtype (selected_field spec) with
      | Error status => Done (Error status)
      | Value field_index =>
          fill_value ← of_option (metadata_fill_value !! field_index);
          Done (Value fill_value)
      end
  | _, _ => Done (Value fill_value)
  end.


(** The loop of [SpecGetFillValue], driver.cc:211, with [n] iterations left
    from counter [i]; [offset] is [output_rank - fill_value.rank()]. *)
Fixpoint SpecGetFillValue_loop (n i : nat) (fill_shape : list Index)
    (offset : nat) (pseudo_shape : list Index) : Checked (list Index) :=
  match n with
  | O => Done pseudo_shape
  | S n' =>
      size ← of_option (fill_shape !! i);
      let size := if decide (size = 1) then kInfIndex + 1 else size in
      assert (bool_decide (offset + i < length pseudo_shape)%nat) $
      SpecGetFillValue_loop n' (S i) fill_shape offset
        (<[(offset + i)%nat := size]> pseudo_shape)
  end.

(** [ZarrDriver::SpecGetFillValue], driver.cc:187. *)
Definition SpecGetFillValue (spec : SpecData) (transform : IndexTransformView)
  : Checked (Result SharedArray) :=
  selected ← SpecGetFillValue_fill_value spec;
  match selected with
  | Error status => Done (Error status)
  | Value fill_value =>
      if negb (valid fill_value) || negb (transform_valid transform)
      then Done (Value fill_value)
      else
        let output_rank := output_rank transform in
        if decide (output_rank < array_rank fill_value)
        then Done (Error (InvalidArgumentError
                     ("Transform with output rank " +:+ AlphaNum output_rank +:+
                      " is not compatible with metadata")))
        else
          let offset := Z.to_nat (output_rank - array_rank fill_value) in
          pseudo_shape ← of_option
            (std.fill_n (uninitialized kMaxRank) 0 offset (kInfIndex + 1));
          pseudo_shape ← SpecGetFillValue_loop
            (length (array_shape fill_value)) 0 (array_shape fill_value)
            offset pseudo_shape;
          assert (bool_decide (Z.to_nat output_rank ≤ length pseudo_shape)%nat) $
          Done (TransformOutputBroadcastableArray transform fill_value
                  (IndexDomain_of_shape
                     (take (Z.to_nat output_rank) pseudo_shape)))
  end.

(** [ZarrDriver::GetFillValue], driver.cc:221. *)
Definition GetFillValue (self : ZarrDriver) (transform : IndexTransformView)
  : Checked (Result SharedArray) :=
  let metadata := initial_metadata_ (cache self) in
  fill_value ← of_option (fill_value metadata !! component_index self);
  if negb (valid fill_value) then Done (Value null_array)
  else
    field ← of_option (fields (dtype metadata) !! component_index self);
    let builder_rank :=
      (length (field_shape field) + Z.to_nat (rank metadata))%nat in
    let shape := IndexDomainBuilder_shape builder_rank in
    shape ← of_option
      (std.fill_n shape 0 (Z.to_nat (rank metadata)) (kInfIndex + 1));
    shape ← of_option
      (std.copy (field_shape field) shape
         (length shape - length (field_shape field)));
    match IndexDomainBuilder_Finalize builder_rank shape with
    | Error status => Done (Error status)
    | Value output_domain =>
        Done (TransformOutputBroadcastableArray transform fill_value
                output_domain)
    end.

(** ** Creating metadata *)

(** [ZarrDriver::OpenState::Create], driver.cc:428.  [existing_metadata] is
    [None] for the null pointer. *)
Definition Create (spec : SpecData) (existing_metadata : option ZarrMetadata)
  : Result ZarrMetadata :=
  match existing_metadata with
  | Some _ => Error (AlreadyExistsError "")
  | None =>
      match GetNewMetadata (partial_metadata spec) (selected_field spec)
              (schema spec) with
      | Error status =>
          Error (MaybeAnnotateStatus status
                   ("Cannot create using specified " +:+ dquote +:+
                    "metadata" +:+ dquote +:+ " and schema"))
      | Value metadata => Value metadata
      end
  end.


(** ** Storage keys of the metadata *)

(** [kZarrMetadataKey], driver.cc:42. *)
Definition kZarrMetadataKey : string := ".zarray".

(** [MetadataCache::GetMetadataStorageKey], driver.cc:75. *)
Definition GetMetadataStorageKey (entry_key : string) : string :=
  entry_key +:+ kZarrMetadataKey.

(** [ZarrDriver::OpenState::GetPrefixForDeleteExisting], driver.cc:417. *)
Definition GetPrefixForDeleteExisting (spec : SpecData) : string :=
  store_path spec.

(** [ZarrDriver::OpenState::GetMetadataCacheEntryKey], driver.cc:421. *)
Definition GetMetadataCacheEntryKey (spec : SpecData) : string :=
  store_path spec.

(** [DataCache::GetBaseKvstorePath], driver.cc:406. *)
Definition GetBaseKvstorePath (self : DataCache) : string := key_prefix_ self.

(** ** Options and bound specs *)

(** [dynamic_rank] of [rank.h], the options of [spec.h] with their
    [minimal_spec] member, [ApplyOptions] of the base driver,
    [EncodeSelectedField] of [spec.h] and [EncodeCacheKey] of
    [cache_key.h]. *)
Variable dynamic_rank : DimensionIndex.
Context {SpecOptions : Type}.
Variable minimal_spec : SpecOptions → bool.
Variable Base_ApplyOptions : SpecData → SpecOptions → Status * SpecData.
Variable EncodeSelectedField : nat → ZarrDType → SelectedField.
Variable internal_EncodeCacheKey :
  string → DimensionSeparator → ZarrMetadata → string.

(** [ZarrPartialMetadata{}]: the rank is dynamic and no member is set. *)
Definition ZarrPartialMetadata_default : ZarrPartialMetadata :=
  {| pm_rank := dynamic_rank; pm_zarr_format := None; pm_shape := None;
     pm_chunks := None; pm_dtype := None; pm_compressor := None;
     pm_order := None; pm_filters := None; pm_fill_value := None;
     pm_dimension_separator := None |}.

(** [ZarrDriver::ApplyOptions], driver.cc:116.  The spec is returned with
    the status. *)
Definition ApplyOptions (spec : SpecData) (options : SpecOptions)
  : Status * SpecData :=
  let spec :=
    if minimal_spec options
    then set_partial_metadata spec ZarrPartialMetadata_default
    else spec in
  Base_ApplyOptions spec options.

(** [DataCache::GetBoundSpecData], driver.cc:369.  The spec is returned with
    the status. *)
Definition GetBoundSpecData (self : DataCache) (spec_base : SpecData)
    (metadata : ZarrMetadata) (component_index : nat) : Status * SpecData :=
  let pm :=
    {| pm_rank := rank metadata;
       pm_zarr_format := Some (zarr_format metadata);
       pm_shape := Some (shape metadata);
       pm_chunks := Some (chunks metadata);
       pm_dtype := Some (dtype metadata);
       pm_compressor := Some (compressor metadata);
       pm_order := Some (order metadata);
       pm_filters := Some (filters metadata);
       pm_fill_value := Some (fill_value metadata);
       pm_dimension_separator := Some (dimension_separator_ self) |} in
  (OkStatus,
   {| store_path := store_path spec_base; schema := schema spec_base;
      partial_metadata := pm;
      selected_field :=
        EncodeSelectedField component_index (dtype metadata) |}).

(** [ZarrDriver::OpenState::GetDataCacheKey], driver.cc:442. *)
Definition GetDataCacheKey (spec : SpecData) (metadata : ZarrMetadata)
  : string :=
  let zarr_metadata := metadata in
  internal_EncodeCacheKey (store_path spec)
    (GetDimensionSeparator (partial_metadata spec) zarr_metadata)
    zarr_metadata.

(** ** The chunk grid *)

(** The data pointer of the array that [AllocateArray] allocates for an
    element type ([array.h]). *)
Variable AllocateArray_data : DataType → N.

(** [AllocateArray(span<const Index, 0>{}, c_order, value_init, dtype)],
    driver.cc:316: a new array of rank zero of the element type. *)
Definition AllocateArray_rank0 (element_type : DataType) : SharedArray :=
  {| array_data := Some (AllocateArray_data element_type);
     array_dtype := Some element_type;
     array_shape := []; array_byte_strides := [] |}.

(** The first inner loop of [GetChunkGridSpecification], driver.cc:326,
    with [n] iterations left from [cell_dim]; [shape] and [byte_strides] are
    those of [chunk_fill_value]. *)
Fixpoint GetChunkGridSpecification_leading (n : nat) (cell_dim : DimensionIndex)
    (full_chunk_shape shape byte_strides : list Index)
  : Checked (list Index * list Index) :=
  match n with
  | O => Done (shape, byte_strides)
  | S n' =>
      size ← of_option (at_index full_chunk_shape cell_dim);
      shape ← of_option (write_at shape cell_dim size);
      byte_strides ← of_option (write_at byte_strides cell_dim 0);
      GetChunkGridSpecification_leading n' (cell_dim + 1)
        full_chunk_shape shape byte_strides
  end.

(** The second inner loop, driver.cc:332. *)
Fixpoint GetChunkGridSpecification_trailing (n : nat)
    (cell_dim fill_value_start_dim : DimensionIndex)
    (full_chunk_shape : list Index) (fill_value : SharedArray)
    (shape byte_strides : list Index)
  : Checked (list Index * list Index) :=
  match n with
  | O => Done (shape, byte_strides)
  | S n' =>
      size ← of_option (at_index full_chunk_shape cell_dim);
      fill_size ← of_option
        (at_index (array_shape fill_value) (cell_dim - fill_value_start_dim));
      assert (bool_decide (fill_size = size)) $
      shape ← of_option (write_at shape cell_dim size);
      stride ← of_option
        (at_index (array_byte_strides fill_value)
           (cell_dim - fill_value_start_dim));
      byte_strides ← of_option (write_at byte_strides cell_dim stride);
      GetChunkGridSpecification_trailing n' (cell_dim + 1)
        fill_value_start_dim full_chunk_shape fill_value shape byte_strides
  end.

(** The body of the loop over the fields, driver.cc:311-344, for the field
    [field] at position [field_i]. *)
Definition GetChunkGridSpecification_component (metadata : ZarrMetadata)
    (chunked_to_cell_dimensions : list DimensionIndex) (field_i : nat)
    (field : ZarrDTypeField) : Checked Component :=
  field_layout ← of_option (layout_fields (chunk_layout metadata) !! field_i);
  fill_value ← of_option (fill_value metadata !! field_i);
  let fill_value :=
    if negb (valid fill_value) then AllocateArray_rank0 (field_dtype field)
    else fill_value in
  assert (bool_decide
            (array_rank fill_value ≤ Z.of_nat (length (field_shape field)))) $
  let cell_rank := Z.of_nat (length (full_chunk_shape field_layout)) in
  let shape := uninitialized (Z.to_nat cell_rank) in
  let byte_strides := uninitialized (Z.to_nat cell_rank) in
  let fill_value_start_dim := cell_rank - array_rank fill_value in
  '(shape, byte_strides) ←
    GetChunkGridSpecification_leading (Z.to_nat fill_value_start_dim) 0
      (full_chunk_shape field_layout) shape byte_strides;
  '(shape, byte_strides) ←
    GetChunkGridSpecification_trailing
      (Z.to_nat (cell_rank - fill_value_start_dim)) fill_value_start_dim
      fill_value_start_dim (full_chunk_shape field_layout) fill_value
      shape byte_strides;
  Done {| component_fill_value :=
            {| array_data := array_data fill_value;
               array_dtype := array_dtype fill_value;
               array_shape := shape; array_byte_strides := byte_strides |};
          component_bounds_rank := cell_rank;
          chunked_to_cell_dimensions := chunked_to_cell_dimensions |}.

(** The loop over the fields, driver.cc:309: [field_i] is the counter,
    [rest] the fields from position [field_i] on. *)
Fixpoint GetChunkGridSpecification_loop (metadata : ZarrMetadata)
    (chunked_to_cell_dimensions : list DimensionIndex) (field_i : nat)
    (rest : list ZarrDTypeField) (components : list Component)
  : Checked (list Component) :=
  match rest with
  | [] => Done components
  | field :: rest' =>
      component ← GetChunkGridSpecification_component metadata
                    chunked_to_cell_dimensions field_i field;
      GetChunkGridSpecification_loop metadata chunked_to_cell_dimensions
        (S field_i) rest' (components ++ [component])
  end.

(** [DataCache::GetChunkGridSpecification], driver.cc:301. *)
Definition GetChunkGridSpecification (metadata : ZarrMetadata)
  : Checked (list Component) :=
  let chunked_to_cell_dimensions :=
    std.iota (replicate (length (chunks metadata)) 0) 0 in
  GetChunkGridSpecification_loop metadata chunked_to_cell_dimensions 0
    (fields (dtype metadata)) [].

(** What the loops are to produce for a field: the fill value seen through
    the shape of a whole chunk, with stride zero in the leading
    dimensions. *)
Definition effective_fill_value (field : ZarrDTypeField) (stored : SharedArray)
  : SharedArray :=
  if valid stored then stored else AllocateArray_rank0 (field_dtype field).

Definition chunk_fill_value (field : ZarrDTypeField)
    (field_layout : ZarrChunkLayoutField) (stored : SharedArray)
  : SharedArray :=
  let fill := effective_fill_value field stored in
  {| array_data := array_data fill; array_dtype := array_dtype fill;
     array_shape := full_chunk_shape field_layout;
     array_byte_strides :=
       replicate (length (full_chunk_shape field_layout) -
                  length (array_shape fill)) 0
       ++ array_byte_strides fill |}.

(** A field, its layout and its stored fill value fit together: the fill
    value has a stride for each of its dimensions, no more dimensions than
    the field, and the extents of the last dimensions of a chunk. *)
Definition field_consistent (field : ZarrDTypeField)
    (field_layout : ZarrChunkLayoutField) (stored : SharedArray) : Prop :=
  let fill := effective_fill_value field stored in
  length (array_byte_strides fill) = length (array_shape fill) ∧
  (length (array_shape fill) ≤ length (field_shape field))%nat ∧
  (length (array_shape fill) ≤ length (full_chunk_shape field_layout))%nat ∧
  drop (length (full_chunk_shape field_layout) - length (array_shape fill))
    (full_chunk_shape field_layout) = array_shape fill.

(** The components that the specification describes for the fields of a
    metadata value, field by field. *)
Fixpoint chunk_grid_components (chunked : list DimensionIndex)
    (fields : list ZarrDTypeField) (layouts : list ZarrChunkLayoutField)
    (fills : list SharedArray) : list Component :=
  match fields, layouts, fills with
  | field :: fields', field_layout :: layouts', stored :: fills' =>
      {| component_fill_value := chunk_fill_value field field_layout stored;
         component_bounds_rank :=
           Z.of_nat (length (full_chunk_shape field_layout));
         chunked_to_cell_dimensions := chunked |}
      :: chunk_grid_components chunked fields' layouts' fills'
  | _, _, _ => []
  end.

(** ** Registered key-value store drivers ([kvstore/registry.h])

    [RegisteredDriver<Derived>] is written against what a driver class
    [Derived] defines: its [SpecData] with a default value,
    [GetBoundSpecData], which fills a spec and returns a status, and
    [EncodeCacheKey], which appends to a key.  The key is the string that
    the functions are handed and return extended.  [EncodeCacheKey_typeid]
    appends the encoding of [typeid(Derived)], and [Driver_EncodeCacheKey] is
    the method of the base class, which encodes the identity of the
    object. *)
Context {Derived DerivedSpecData : Type}.
Variable DerivedSpecData_default : DerivedSpecData.
Variable Derived_GetBoundSpecData :
  Derived → DerivedSpecData → Status * DerivedSpecData.
Variable Derived_EncodeCacheKey : string → DerivedSpecData → string.
Variable EncodeCacheKey_typeid : string → string.
Variable Driver_EncodeCacheKey : Derived → string → string.

(** [Status::ok]. *)
Definition ok (status : Status) : bool := bool_decide (code status = kOk).

Inductive ContextBindingState := unknown | unbound | bound.

(** [RegisteredDriverSpec<Derived>], registry.h:217. *)
Record RegisteredDriverSpec := {
  context_binding_state_ : ContextBindingState;
  data_ : DerivedSpecData;
}.

(** [RegisteredDriver::EncodeCacheKeyImpl], registry.h:142. *)
Definition EncodeCacheKeyImpl (out : string) (data : DerivedSpecData)
  : string :=
  Derived_EncodeCacheKey (EncodeCacheKey_typeid out) data.

(** [RegisteredDriver::EncodeCacheKey], registry.h:148. *)
Definition RegisteredDriver_EncodeCacheKey (self : Derived) (out : string)
  : string :=
  let bound_spec_data := DerivedSpecData_default in
  let '(status, bound_spec_data) :=
    Derived_GetBoundSpecData self bound_spec_data in
  if negb (ok status) then Driver_EncodeCacheKey self out
  else EncodeCacheKeyImpl out bound_spec_data.

(** [RegisteredDriver::GetBoundSpec], registry.h:163. *)
Definition RegisteredDriver_GetBoundSpec (self : Derived)
  : Result RegisteredDriverSpec :=
  let '(status, data) :=
    Derived_GetBoundSpecData self DerivedSpecData_default in
  if negb (ok status) then Error status
  else Value {| context_binding_state_ := bound; data_ := data |}.

(** [RegisteredDriverSpec::EncodeCacheKey], registry.h:234. *)
Definition RegisteredDriverSpec_EncodeCacheKey (self : RegisteredDriverSpec)
    (out : string) : string :=
  EncodeCacheKeyImpl out (data_ self).

(** In the loop lemmas the part of a vector that is done grows by one
    element per iteration; [snoc_step H] brings an instance [H] of the
    induction hypothesis, taken at [done ++ [x]], into the form of the
    goal. *)
Ltac snoc_step H :=
  rewrite ?length_app in H; cbn [length] in H;
  rewrite ?Nat.add_1_r in H; rewrite <- ?app_assoc in H; cbn [app] in H.

(** * Chunk keys: the join and its reverse *)

Example EncodeChunkIndices_dot :
  EncodeChunkIndices [1; 2; 3] kDotSeparated = "1.2.3".
Proof. reflexivity. Qed.

Example EncodeChunkIndices_slash :
  EncodeChunkIndices [10; 0] kSlashSeparated = "10/0".
Proof. reflexivity. Qed.

Example EncodeChunkIndices_rank_zero :
  EncodeChunkIndices [] kSlashSeparated = "".
Proof. reflexivity. Qed.

Example DecodeChunkIndices_slash :
  DecodeChunkIndices "10/0" kSlashSeparated = Some [10; 0].
Proof. reflexivity. Qed.

Example DecodeChunkIndices_other_separator :
  DecodeChunkIndices "10/0" kDotSeparated = None.
Proof. reflexivity. Qed.

Lemma append_nil_l (s : string) : "" +:+ s = s.
Proof. reflexivity. Qed.

Lemma append_cons (a : ascii) (s t : string) :
  String a s +:+ t = String a (s +:+ t).
Proof. reflexivity. Qed.

Lemma append_nil_r (s : string) : s +:+ "" = s.
Proof. induction s as [|a s IH]; [done|]. by rewrite append_cons, IH. Qed.

Lemma append_assoc (s t u : string) : (s +:+ t) +:+ u = s +:+ (t +:+ u).
Proof. induction s as [|a s IH]; [done|]. by rewrite !append_cons, IH. Qed.

Lemma concat_cons_cons (sep a b : string) (l : list string) :
  String.concat sep (a :: b :: l) = a +:+ sep +:+ String.concat sep (b :: l).
Proof. reflexivity. Qed.

(** After the first iteration every index is written behind a separator:
    with the numeral of [x] last in [key], the loop completes the join of
    [x :: rest]. *)
Lemma EncodeChunkIndices_loop_tail separator rest : ∀ i key x,
  (i ≠ 0)%nat →
  EncodeChunkIndices_loop separator i rest (key +:+ AlphaNum x) =
  key +:+ join_indices separator (x :: rest).
Proof.
  unfold join_indices.
  induction rest as [|y rest IH]; intros i key x Hi.
  - reflexivity.
  - cbn [EncodeChunkIndices_loop]. rewrite decide_True by done.
    replace ((key +:+ AlphaNum x) +:+ String separator (AlphaNum y))
      with ((key +:+ AlphaNum x +:+ String separator "") +:+ AlphaNum y)
      by (by rewrite !append_assoc).
    rewrite IH by done.
    rewrite (fmap_cons AlphaNum x), (fmap_cons AlphaNum y), concat_cons_cons.
    rewrite <- (fmap_cons AlphaNum y). by rewrite !append_assoc.
Qed.

(** The loop of the source builds the join of the numerals. *)
Lemma EncodeChunkIndices_join indices dimension_separator :
  EncodeChunkIndices indices dimension_separator =
  join_indices (GetDimensionSeparatorChar dimension_separator) indices.
Proof.
  unfold EncodeChunkIndices.
  destruct indices as [|x rest]; [done|].
  cbn [EncodeChunkIndices_loop]. rewrite decide_False by (intros H; by apply H).
  rewrite <- (append_nil_l (join_indices _ _)).
  by apply EncodeChunkIndices_loop_tail.
Qed.

(** Numerals are made of digits and a sign: no separator occurs in them,
    they are not empty, and reading one gives the integer back. *)
Lemma GetDimensionSeparatorChar_cases dimension_separator :
  GetDimensionSeparatorChar dimension_separator = "."%char ∨
  GetDimensionSeparatorChar dimension_separator = "/"%char.
Proof. destruct dimension_separator; [by left | by right]. Qed.

Lemma occurs_string_of_uint c d :
  c = "."%char ∨ c = "/"%char → occurs c (NilEmpty.string_of_uint d) = false.
Proof. intros [-> | ->]; induction d; simpl; auto. Qed.

Lemma occurs_AlphaNum dimension_separator x :
  occurs (GetDimensionSeparatorChar dimension_separator) (AlphaNum x) = false.
Proof.
  pose proof (GetDimensionSeparatorChar_cases dimension_separator) as Hc.
  revert Hc. generalize (GetDimensionSeparatorChar dimension_separator).
  intros c Hc. unfold AlphaNum, NilZero.string_of_int, NilZero.string_of_uint.
  assert (occurs c "0" = false) as H0 by (by destruct Hc as [-> | ->]).
  assert (bool_decide ("-"%char = c) = false) as Hm
    by (by destruct Hc as [-> | ->]).
  destruct (Z.to_int x) as [d|d]; destruct d eqn:E; rewrite <- ?E;
    cbn [occurs]; rewrite ?Hm; cbn [orb]; try exact H0;
    by apply occurs_string_of_uint.
Qed.

Lemma AlphaNum_nonempty x : AlphaNum x ≠ "".
Proof.
  unfold AlphaNum. destruct x as [|p|p]; [done| |done].
  cbn. pose proof (Unsigned.to_uint_nonnil p) as Hnil.
  destruct (Pos.to_uint p); done.
Qed.

Lemma parse_index_AlphaNum x : parse_index (AlphaNum x) = Some x.
Proof.
  unfold parse_index, AlphaNum. rewrite NilZero.isi.
  - cbn. by rewrite DecimalZ.of_to.
  - destruct x as [|p|p]; cbn; try done.
    intros [= H]. by apply (Unsigned.to_uint_nonnil p).
  - destruct x as [|p|p]; cbn; try done.
    intros [= H]. by apply (Unsigned.to_uint_nonnil p).
Qed.

(** Cutting at a character that does not occur leaves one piece; cutting a
    join at its separator gives the pieces back. *)
Lemma split_on_whole c s : occurs c s = false → split_on c s = [s].
Proof.
  induction s as [|a s IH]; [done|]. cbn [occurs split_on].
  intros [Ha Hs]%orb_false_elim. rewrite bool_decide_eq_false in Ha.
  rewrite decide_False by done. by rewrite IH.
Qed.

Lemma split_on_app c p rest :
  occurs c p = false →
  split_on c (p +:+ String c rest) = p :: split_on c rest.
Proof.
  induction p as [|a p IH].
  - intros _. rewrite append_nil_l. cbn [split_on]. by rewrite decide_True.
  - cbn [occurs]. intros [Ha Hp]%orb_false_elim.
    rewrite bool_decide_eq_false in Ha.
    rewrite append_cons. cbn [split_on]. rewrite decide_False by done.
    by rewrite IH.
Qed.

Lemma split_on_concat c (pieces : list string) :
  pieces ≠ [] → Forall (λ p, occurs c p = false) pieces →
  split_on c (String.concat (String c "") pieces) = pieces.
Proof.
  induction pieces as [|p pieces IH]; [done|]. intros _ Hall.
  apply Forall_cons in Hall as [Hp Hall].
  destruct pieces as [|q pieces].
  - by apply split_on_whole.
  - rewrite concat_cons_cons, append_cons, append_nil_l.
    rewrite split_on_app by done. by rewrite IH.
Qed.

Lemma mapM_parse_index indices :
  mapM parse_index (AlphaNum <$> indices) = Some indices.
Proof.
  induction indices as [|x indices IH]; [done|].
  rewrite fmap_cons. cbn [mapM]. rewrite parse_index_AlphaNum, IH. done.
Qed.

Lemma join_indices_nonempty separator x rest :
  join_indices separator (x :: rest) ≠ "".
Proof.
  unfold join_indices. rewrite fmap_cons.
  pose proof (AlphaNum_nonempty x) as Hx.
  destruct (AlphaNum x) eqn:E; [done|].
  destruct rest; [by rewrite <- E in * |].
  rewrite fmap_cons, concat_cons_cons. by rewrite append_cons.
Qed.

(** Reading back the indices from what [EncodeChunkIndices] wrote. *)
Lemma DecodeChunkIndices_EncodeChunkIndices indices dimension_separator :
  DecodeChunkIndices (EncodeChunkIndices indices dimension_separator)
    dimension_separator = Some indices.
Proof.
  rewrite EncodeChunkIndices_join. unfold DecodeChunkIndices.
  destruct indices as [|x rest]; [done|].
  rewrite decide_False by apply join_indices_nonempty.
  unfold join_indices. rewrite split_on_concat.
  - apply mapM_parse_index.
  - by rewrite fmap_cons.
  - apply Forall_fmap, Forall_forall. intros y _. apply occurs_AlphaNum.
Qed.

Lemma strip_prefix_app p s : strip_prefix p (p +:+ s) = Some s.
Proof.
  induction p as [|a p IH]; [by destruct s|].
  rewrite append_cons. cbn [strip_prefix]. by rewrite decide_True.
Qed.

(** * The dimension separator *)


(** * The deprecated alias *)

(** C6.  Loading the deprecated member ["key_encoding"] with value [value]:
    when the metadata of the spec names no separator, the value is adopted;
    when it names the same separator, loading succeeds and the separator
    stays; when it names another one, loading fails with an invalid-argument
    status and the spec is left as it was. *)
Theorem key_encoding_alias (obj : SpecData) (value : DimensionSeparator) :
  let sep := pm_dimension_separator (partial_metadata obj) in
  let adopted :=
    set_partial_metadata obj
      (set_dimension_separator (partial_metadata obj) (Some value)) in
  (sep = None → json_binder_key_encoding obj value = (OkStatus, adopted)) ∧
  (sep = Some value →
   json_binder_key_encoding obj value = (OkStatus, adopted) ∧
   partial_metadata adopted = partial_metadata obj) ∧
  (∀ other, sep = Some other → other ≠ value →
   code (json_binder_key_encoding obj value).1 = kInvalidArgument ∧
   (json_binder_key_encoding obj value).2 = obj) ∧
  pm_dimension_separator (partial_metadata adopted) = Some value.
Proof.
  cbn zeta. unfold json_binder_key_encoding.
  split; [by intros ->|]. split; [|split; [|done]].
  - intros Hsep. rewrite Hsep.
    rewrite decide_False by (by intros H; apply H). split; [done|].
    destruct obj as [p sch pm sel]; cbn in *. destruct pm; cbn in *.
    by subst.
  - intros other -> Hne. by rewrite decide_True.
Qed.

(** * Creation *)

(** C8.  [Create] on a store that already has metadata fails with the
    already-exists status; on a store without metadata it returns what
    [GetNewMetadata] derives from the partial metadata, the selected field
    and the schema of the spec, and an error of that derivation comes back
    annotated, never as already-exists by [Create] itself. *)
Theorem Create_already_exists (spec : SpecData) :
  (∀ existing, Create spec (Some existing) = Error (AlreadyExistsError "") ∧
               code (AlreadyExistsError "") = kAlreadyExists) ∧
  (∀ metadata,
     GetNewMetadata (partial_metadata spec) (selected_field spec) (schema spec)
       = Value metadata →
     Create spec None = Value metadata) ∧
  (∀ status,
     GetNewMetadata (partial_metadata spec) (selected_field spec) (schema spec)
       = Error status →
     ∃ annotation, Create spec None =
                   Error (MaybeAnnotateStatus status annotation)).
Proof.
  unfold Create. split; [done|]. split.
  - by intros metadata ->.
  - intros status ->. by eexists.
Qed.

(** * Metadata encoding *)

(** X22.  [DecodeMetadata] does not look at the entry key.  For bytes that
    are not JSON it returns the failed-precondition status "Invalid JSON";
    for bytes that are JSON it returns what the metadata conversion returns
    for the parsed value, its error included; so it returns metadata only
    when both steps succeed. *)
Theorem DecodeMetadata_cases (entry_key : string) (bytes : string) :
  (∀ other_key,
     DecodeMetadata other_key bytes = DecodeMetadata entry_key bytes) ∧
  (json_parse bytes = None →
   DecodeMetadata entry_key bytes =
   Error (FailedPreconditionError "Invalid JSON") ∧
   code (FailedPreconditionError "Invalid JSON") = kFailedPrecondition) ∧
  (∀ raw_data,
     json_parse bytes = Some raw_data →
     DecodeMetadata entry_key bytes = ZarrMetadata_FromJson raw_data) ∧
  (∀ decoded,
     DecodeMetadata entry_key bytes = Value decoded →
     ∃ raw_data, json_parse bytes = Some raw_data ∧
                 ZarrMetadata_FromJson raw_data = Value decoded).
Proof.
  unfold DecodeMetadata, ParseEncodedMetadata.
  split; [done|]. split; [by intros ->|]. split.
  - intros raw_data ->. by destruct (ZarrMetadata_FromJson raw_data).
  - intros decoded. destruct (json_parse bytes) as [raw_data|]; [|done].
    destruct (ZarrMetadata_FromJson raw_data) eqn:E; [|done].
    intros [= <-]. by exists raw_data.
Qed.

(** * Compatibility *)

(** C1.  [ValidateMetadataCompatibility] returns the OK status exactly when
    [IsMetadataCompatible] accepts the pair, that is when the two metadata
    values agree on rank, chunk shape and field layout, and a
    failed-precondition status otherwise; metadata that differ in the shape
    extents only are accepted. *)
Theorem ValidateMetadataCompatibility_iff (existing_metadata new_metadata : ZarrMetadata) :
  let agree :=
    rank existing_metadata = rank new_metadata ∧
    chunks existing_metadata = chunks new_metadata ∧
    dtype existing_metadata = dtype new_metadata in
  (ValidateMetadataCompatibility existing_metadata new_metadata = OkStatus
   ↔ IsMetadataCompatible existing_metadata new_metadata = true) ∧
  (ValidateMetadataCompatibility existing_metadata new_metadata = OkStatus
   ↔ agree) ∧
  (¬ agree →
   code (ValidateMetadataCompatibility existing_metadata new_metadata)
   = kFailedPrecondition) ∧
  (∀ new_shape,
     ValidateMetadataCompatibility existing_metadata
       (set_shape existing_metadata new_shape) = OkStatus).
Proof.
  cbn zeta. unfold ValidateMetadataCompatibility, IsMetadataCompatible.
  split; [|split; [|split]].
  - case_bool_decide as Hagree.
    + by split.
    + split; [intros Hok; discriminate Hok | done].
  - case_bool_decide as Hagree.
    + by split.
    + split; [intros Hok; discriminate Hok | intros Hyes; by destruct Hagree].
  - intros Hno. by rewrite bool_decide_eq_false_2.
  - intros new_shape. by rewrite bool_decide_eq_true_2.
Qed.

(** * Grid bounds *)

(** C5.  With output arguments of the rank of the metadata,
    [GetChunkGridBounds] returns bounds whose origin is zero in every
    dimension and whose shape is the shape of the metadata, marks no lower
    bound implicit and marks every upper bound implicit. *)
Theorem GetChunkGridBounds_spec (metadata : ZarrMetadata) (bounds : Box)
    (implicit_lower_bounds implicit_upper_bounds : list bool) :
  let n := length (shape metadata) in
  length (box_origin bounds) = n →
  length (box_shape bounds) = n →
  length implicit_lower_bounds = n →
  length implicit_upper_bounds = n →
  GetChunkGridBounds metadata bounds implicit_lower_bounds implicit_upper_bounds
  = Done ({| box_origin := replicate n 0; box_shape := shape metadata |},
          replicate n false, replicate n true).
Proof.
  cbn zeta. intros Ho Hs Hl Hu. unfold GetChunkGridBounds, box_rank.
  rewrite Ho, Hl, Hu. rewrite !bool_decide_eq_true_2 by done. cbn [assert].
  unfold std.copy, std.fill. rewrite Hs, Ho, Hl, Hu.
  rewrite decide_True by (cbn; lia). cbn.
  rewrite (drop_ge (box_shape bounds)) by lia. by rewrite app_nil_r.
Qed.

(** * Fill value of a component without one *)

(** C9.  For a component whose stored fill value is not valid (none was
    declared), [GetFillValue] returns successfully, for every transform,
    and the array returned is the null array. *)
Theorem GetFillValue_unset (self : ZarrDriver) (transform : IndexTransformView)
    (stored : SharedArray) :
  fill_value (initial_metadata_ (cache self)) !! component_index self
    = Some stored →
  valid stored = false →
  GetFillValue self transform = Done (Value null_array) ∧
  valid null_array = false.
Proof.
  intros Hlookup Hvalid. unfold GetFillValue. rewrite Hlookup. cbn.
  by rewrite Hvalid.
Qed.

(** * Resizing *)

Lemma ExplicitIndexOr_zero (value : Index) :
  ExplicitIndexOr value 0 = 0 ↔ value = 0 ∨ value = kImplicit.
Proof.
  unfold ExplicitIndexOr. case_decide as Hvalue.
  - split; [intros _; by right | done].
  - split; [intros Hzero; by left | intros [Hzero|Himplicit]; [done|]].
    by destruct Hvalue.
Qed.

(** The loop, started at counter [i] with the first [i] extents done, goes
    through the remaining ones. *)
Lemma GetResizedMetadata_loop_done todo : ∀ mins_todo maxs_todo done mins_done maxs_done,
  length mins_todo = length todo → length maxs_todo = length todo →
  length mins_done = length done → length maxs_done = length done →
  Forall (λ lo, lo = 0 ∨ lo = kImplicit) mins_todo →
  GetResizedMetadata_loop (length todo) (length done)
    (mins_done ++ mins_todo) (maxs_done ++ maxs_todo) (done ++ todo)
  = Done (done ++ zip_with resized_extent todo maxs_todo).
Proof.
  induction todo as [|old todo IH];
    intros mins_todo maxs_todo done mins_done maxs_done Hm Hx Hmd Hxd Hok.
  - destruct maxs_todo; done.
  - destruct mins_todo as [|lo mins_todo]; [done|].
    destruct maxs_todo as [|new_size maxs_todo]; [done|].
    apply Forall_cons in Hok as [Hlo Hok]. cbn [length] in Hm, Hx.
    cbn [length GetResizedMetadata_loop].
    rewrite (list_lookup_middle mins_done mins_todo lo (length done)) by done.
    rewrite (list_lookup_middle maxs_done maxs_todo new_size (length done))
      by done.
    cbn. rewrite bool_decide_eq_true_2 by (by apply ExplicitIndexOr_zero). cbn.
    cbn [zip_with]. case_decide as Hsize.
    + pose proof (IH mins_todo maxs_todo (done ++ [old]) (mins_done ++ [lo])
                    (maxs_done ++ [new_size])) as IH1.
      snoc_step IH1. rewrite IH1 by (lia || done).
      unfold resized_extent. by rewrite decide_True.
    + rewrite insert_app_r_alt by lia. rewrite Nat.sub_diag.
      cbn [insert list_insert].
      pose proof (IH mins_todo maxs_todo (done ++ [new_size])
                    (mins_done ++ [lo]) (maxs_done ++ [new_size])) as IH1.
      snoc_step IH1. rewrite IH1 by (lia || done).
      unfold resized_extent. by rewrite decide_False.
Qed.

(** An inclusive minimum that is neither zero nor the sentinel stops it. *)
Lemma GetResizedMetadata_loop_aborted mins_todo : ∀ mins_done maxs new_shape,
  Exists (λ lo, ¬ (lo = 0 ∨ lo = kImplicit)) mins_todo →
  GetResizedMetadata_loop (length mins_todo) (length mins_done)
    (mins_done ++ mins_todo) maxs new_shape = Aborted.
Proof.
  induction mins_todo as [|lo mins_todo IH]; intros mins_done maxs new_shape Hbad.
  - by apply Exists_nil in Hbad.
  - cbn [length GetResizedMetadata_loop].
    rewrite list_lookup_middle by done. cbn.
    destruct (decide (lo = 0 ∨ lo = kImplicit)) as [Hlo|Hlo].
    + rewrite bool_decide_eq_true_2 by (by apply ExplicitIndexOr_zero). cbn.
      apply Exists_cons in Hbad as [Hbad|Hbad]; [done|].
      destruct (maxs !! length mins_done) as [new_size|]; [|done]. cbn.
      pose proof (λ sh, IH (mins_done ++ [lo]) maxs sh Hbad) as IH1.
      rewrite length_app in IH1. cbn [length] in IH1.
      rewrite !Nat.add_1_r in IH1. rewrite <- app_assoc in IH1.
      cbn [app] in IH1. case_decide; apply IH1.
    + rewrite bool_decide_eq_false_2; [done|].
      by rewrite ExplicitIndexOr_zero.
Qed.

(** C2.  For a request of the rank of the metadata: when every inclusive
    minimum is zero or unspecified, [GetResizedMetadata] returns metadata
    whose shape has, in each dimension, the old extent where the exclusive
    maximum is the sentinel and the exclusive maximum elsewhere, and whose
    other members are those of the existing metadata; when some inclusive
    minimum is anything else, the call stops on the assertion and yields
    neither metadata nor an error status. *)
Theorem GetResizedMetadata_spec (existing_metadata : ZarrMetadata)
    (new_inclusive_min new_exclusive_max : list Index) :
  length new_inclusive_min = length (shape existing_metadata) →
  length new_exclusive_max = length (shape existing_metadata) →
  (Forall (λ lo, lo = 0 ∨ lo = kImplicit) new_inclusive_min →
   ∃ resized,
     GetResizedMetadata existing_metadata new_inclusive_min new_exclusive_max
     = Done (Value resized) ∧
     length (shape resized) = length (shape existing_metadata) ∧
     (∀ i old_size new_size,
        shape existing_metadata !! i = Some old_size →
        new_exclusive_max !! i = Some new_size →
        shape resized !! i =
        Some (if decide (new_size = kImplicit) then old_size else new_size)) ∧
     shape resized
     = zip_with resized_extent (shape existing_metadata) new_exclusive_max ∧
     rank resized = rank existing_metadata ∧
     zarr_format resized = zarr_format existing_metadata ∧
     chunks resized = chunks existing_metadata ∧
     dtype resized = dtype existing_metadata ∧
     compressor resized = compressor existing_metadata ∧
     order resized = order existing_metadata ∧
     filters resized = filters existing_metadata ∧
     fill_value resized = fill_value existing_metadata ∧
     dimension_separator resized = dimension_separator existing_metadata ∧
     chunk_layout resized = chunk_layout existing_metadata) ∧
  (¬ Forall (λ lo, lo = 0 ∨ lo = kImplicit) new_inclusive_min →
   GetResizedMetadata existing_metadata new_inclusive_min new_exclusive_max
   = Aborted).
Proof.
  intros Hmin Hmax. unfold GetResizedMetadata.
  rewrite !bool_decide_eq_true_2 by done. cbn [assert]. split.
  - intros Hok.
    pose proof (GetResizedMetadata_loop_done (shape existing_metadata)
                  new_inclusive_min new_exclusive_max [] [] []) as Hloop.
    cbn in Hloop. rewrite Hloop by done. eexists. split; [done|].
    cbn. split; [rewrite length_zip_with; lia|]. split; [|done].
    intros i old_size new_size Hold Hnew.
    rewrite lookup_zip_with, Hold. cbn. rewrite Hnew. done.
  - intros Hbad. apply not_Forall_Exists in Hbad; [|intros lo; apply _].
    pose proof (GetResizedMetadata_loop_aborted new_inclusive_min []
                  new_exclusive_max (shape existing_metadata) Hbad) as Hloop.
    cbn in Hloop. rewrite <- Hmin. by rewrite Hloop.
Qed.

(** * Fill value against a transform *)



(** X21.  What [ZarrDriver::GetFillValue] does with a stored fill value: it has no
    rank check of its own and hands the transform to the broadcast, over the
    domain of the chunked dimensions followed by the field shape. *)
Lemma GetFillValue_stored (self : ZarrDriver) (transform : IndexTransformView)
    (stored : SharedArray) (field : ZarrDTypeField) :
  let metadata := initial_metadata_ (cache self) in
  let builder_rank :=
    (length (field_shape field) + Z.to_nat (rank metadata))%nat in
  fill_value metadata !! component_index self = Some stored →
  valid stored = true →
  fields (dtype metadata) !! component_index self = Some field →
  length (IndexDomainBuilder_shape builder_rank) = builder_rank →
  GetFillValue self transform =
  match IndexDomainBuilder_Finalize builder_rank
          (replicate (Z.to_nat (rank metadata)) (kInfIndex + 1) ++
           field_shape field) with
  | Error status => Done (Error status)
  | Value output_domain =>
      Done (TransformOutputBroadcastableArray transform stored output_domain)
  end.
Proof.
  cbn zeta. intros Hfill Hvalid Hfield Hlen. unfold GetFillValue.
  rewrite Hfill. cbn. rewrite Hvalid. cbn. rewrite Hfield. cbn.
  unfold std.fill_n. rewrite decide_True by lia. cbn.
  rewrite take_0. cbn [app].
  set (n := Z.to_nat (rank (initial_metadata_ (cache self)))) in *.
  set (shape0 := IndexDomainBuilder_shape (length (field_shape field) + n)) in *.
  assert (length (replicate n (kInfIndex + 1) ++ drop n shape0) =
          (length (field_shape field) + n)%nat) as Hfilled
    by (rewrite length_app, length_replicate, length_drop; lia).
  unfold std.copy. rewrite Hfilled.
  replace (length (field_shape field) + n - length (field_shape field))%nat
    with n by lia.
  rewrite decide_True by lia. cbn.
  rewrite take_app_length' by (by rewrite length_replicate).
  rewrite drop_ge by lia. by rewrite app_nil_r.
Qed.


(** * Chunk keys *)

(** C3.  The chunk key is the key prefix of the cache followed by the
    numerals of the cell indices joined by the separator character of the
    cache; stripping the prefix and cutting at the separator gives the
    indices back, so two tuples with the same key under one prefix are the
    same tuple.  This holds for all tuples, in particular for those of
    non-negative indices of one rank. *)
Theorem GetChunkStorageKey_injective (self : DataCache)
    (metadata : ZarrMetadata) (cell_indices : list Index) :
  GetChunkStorageKey self metadata cell_indices =
    key_prefix_ self +:+
    join_indices (GetDimensionSeparatorChar (dimension_separator_ self))
      cell_indices ∧
  DecodeChunkStorageKey self (GetChunkStorageKey self metadata cell_indices)
    = Some cell_indices ∧
  (∀ other_metadata other_indices,
     GetChunkStorageKey self other_metadata other_indices =
     GetChunkStorageKey self metadata cell_indices →
     other_indices = cell_indices).
Proof.
  assert (∀ m l, DecodeChunkStorageKey self (GetChunkStorageKey self m l)
                 = Some l) as Hdecode.
  { intros m l. unfold DecodeChunkStorageKey, GetChunkStorageKey.
    rewrite strip_prefix_app. cbn.
    apply DecodeChunkIndices_EncodeChunkIndices. }
  split; [|split].
  - unfold GetChunkStorageKey. by rewrite EncodeChunkIndices_join.
  - apply Hdecode.
  - intros other_metadata other_indices Hkey.
    pose proof (Hdecode other_metadata other_indices) as Hother.
    rewrite Hkey, Hdecode in Hother. congruence.
Qed.

(** * Storage keys of one store *)

Lemma prefix_app (p s : string) : String.prefix p (p +:+ s) = true.
Proof.
  induction p as [|a p IH]; [by destruct s|].
  rewrite append_cons. cbn [String.prefix].
  by destruct (ascii_dec a a).
Qed.

Lemma length_append (s t : string) :
  String.length (s +:+ t) = (String.length s + String.length t)%nat.
Proof.
  induction s as [|a s IH]; [done|].
  rewrite append_cons. cbn [String.length]. by rewrite IH.
Qed.

(** Cancelling a common end of two strings. *)
Lemma append_inj_r (t : string) : ∀ s s', s +:+ t = s' +:+ t → s = s'.
Proof.
  induction s as [|a s IH]; intros [|b s'] Heq.
  - done.
  - apply (f_equal String.length) in Heq.
    rewrite append_nil_l, append_cons in Heq. cbn [String.length] in Heq.
    rewrite length_append in Heq. lia.
  - apply (f_equal String.length) in Heq.
    rewrite append_nil_l, append_cons in Heq. cbn [String.length] in Heq.
    rewrite length_append in Heq. lia.
  - rewrite !append_cons in Heq. injection Heq as -> Heq.
    by rewrite (IH s' Heq).
Qed.

(** A join of at least one index starts with a character of a numeral,
    which is not a dot. *)
Lemma join_indices_head separator x rest :
  ∃ c s, join_indices separator (x :: rest) = String c s ∧ c ≠ "."%char.
Proof.
  pose proof (occurs_AlphaNum kDotSeparated x) as Hdot.
  pose proof (AlphaNum_nonempty x) as Hne.
  unfold join_indices. rewrite fmap_cons.
  destruct (AlphaNum x) as [|c s] eqn:E; [done|].
  cbn in Hdot. apply orb_false_elim in Hdot as [Hc _].
  rewrite bool_decide_eq_false in Hc.
  destruct rest as [|y rest].
  - by exists c, s.
  - rewrite fmap_cons, concat_cons_cons, append_cons. by eexists _, _.
Qed.

(** X1.  The key of the metadata and the keys of the chunks of one store all
    start with the prefix that is deleted when an existing store is
    replaced, and no chunk, of any rank and with either separator, is stored
    under the key of the metadata. *)
Theorem storage_keys_under_prefix (spec : SpecData)
    (metadata other_metadata : ZarrMetadata) (cell_indices : list Index) :
  let data_cache := GetDataCache spec metadata in
  let metadata_key := GetMetadataStorageKey (GetMetadataCacheEntryKey spec) in
  let chunk_key := GetChunkStorageKey data_cache other_metadata cell_indices in
  String.prefix (GetPrefixForDeleteExisting spec) metadata_key = true ∧
  String.prefix (GetPrefixForDeleteExisting spec) chunk_key = true ∧
  chunk_key ≠ metadata_key.
Proof.
  cbn zeta. unfold GetMetadataStorageKey, GetMetadataCacheEntryKey,
    GetPrefixForDeleteExisting, GetChunkStorageKey, GetDataCache.
  cbn [key_prefix_ dimension_separator_].
  split; [apply prefix_app|]. split; [apply prefix_app|].
  intros Heq. apply (inj (String.app _)) in Heq.
  rewrite EncodeChunkIndices_join in Heq.
  destruct cell_indices as [|x rest]; [done|].
  destruct (join_indices_head
              (GetDimensionSeparatorChar
                 (GetDimensionSeparator (partial_metadata spec) metadata))
              x rest) as (c & s & Hjoin & Hc).
  rewrite Hjoin in Heq. injection Heq as Hdot _. done.
Qed.

(** X2.  Stores with different entry keys keep their metadata under different
    storage keys. *)
Theorem GetMetadataStorageKey_injective (entry_key other_key : string) :
  GetMetadataStorageKey entry_key = GetMetadataStorageKey other_key →
  entry_key = other_key.
Proof. apply append_inj_r. Qed.

(** X3.  The chunk of an array of rank zero is stored under the base path
    itself, and it is the only chunk that is. *)
Theorem GetChunkStorageKey_base_path (self : DataCache)
    (metadata : ZarrMetadata) (cell_indices : list Index) :
  GetChunkStorageKey self metadata cell_indices = GetBaseKvstorePath self
  ↔ cell_indices = [].
Proof.
  unfold GetChunkStorageKey, GetBaseKvstorePath. split.
  - intros Heq. rewrite <- (append_nil_r (key_prefix_ self)) in Heq at 2.
    apply (inj (String.app _)) in Heq. rewrite EncodeChunkIndices_join in Heq.
    destruct cell_indices as [|x rest]; [done|].
    by apply join_indices_nonempty in Heq.
  - intros ->. apply append_nil_r.
Qed.

(** X4.  Two caches on one path that use different separators give a tuple the
    same key exactly when the tuple has at most one index. *)
Theorem GetChunkStorageKey_separator (self other : DataCache)
    (metadata : ZarrMetadata) (cell_indices : list Index) :
  key_prefix_ self = key_prefix_ other →
  dimension_separator_ self ≠ dimension_separator_ other →
  (GetChunkStorageKey self metadata cell_indices =
   GetChunkStorageKey other metadata cell_indices
   ↔ (length cell_indices ≤ 1)%nat).
Proof.
  intros Hprefix Hsep. unfold GetChunkStorageKey. rewrite Hprefix.
  rewrite !EncodeChunkIndices_join. split.
  - intros Heq. apply (inj (String.app _)) in Heq.
    destruct cell_indices as [|x [|y rest]]; [cbn; lia | cbn; lia |].
    exfalso. unfold join_indices in Heq.
    rewrite !fmap_cons, !concat_cons_cons in Heq.
    apply (inj (String.app _)) in Heq. rewrite !append_cons in Heq.
    injection Heq as Hchar _.
    destruct (dimension_separator_ self), (dimension_separator_ other);
      done.
  - intros Hlen. destruct cell_indices as [|x [|y rest]];
      [done | done | cbn in Hlen; lia].
Qed.

(** * Resizing, again *)

Lemma set_shape_shape (metadata : ZarrMetadata) :
  set_shape metadata (shape metadata) = metadata.
Proof. by destruct metadata. Qed.

Lemma resized_extent_implicit (extents : list Index) :
  zip_with resized_extent extents (replicate (length extents) kImplicit)
  = extents.
Proof.
  induction extents as [|old extents IH]; [done|].
  cbn. rewrite IH. unfold resized_extent. by rewrite decide_True.
Qed.

Lemma resized_extent_twice (extents maxs : list Index) :
  zip_with resized_extent (zip_with resized_extent extents maxs) maxs
  = zip_with resized_extent extents maxs.
Proof.
  revert maxs. induction extents as [|old extents IH]; intros [|new maxs];
    [done..|].
  cbn. rewrite IH. f_equal. unfold resized_extent. by case_decide.
Qed.

(** What a call of [GetResizedMetadata] that returns has returned. *)
Lemma GetResizedMetadata_done (existing_metadata : ZarrMetadata)
    (new_inclusive_min new_exclusive_max : list Index) :
  length new_inclusive_min = length (shape existing_metadata) →
  length new_exclusive_max = length (shape existing_metadata) →
  Forall (λ lo, lo = 0 ∨ lo = kImplicit) new_inclusive_min →
  GetResizedMetadata existing_metadata new_inclusive_min new_exclusive_max
  = Done (Value (set_shape existing_metadata
                   (zip_with resized_extent (shape existing_metadata)
                      new_exclusive_max))).
Proof.
  intros Hmin Hmax Hok. unfold GetResizedMetadata.
  rewrite !bool_decide_eq_true_2 by done. cbn [assert].
  pose proof (GetResizedMetadata_loop_done (shape existing_metadata)
                new_inclusive_min new_exclusive_max [] [] []) as Hloop.
  cbn in Hloop. by rewrite Hloop.
Qed.

Lemma GetResizedMetadata_returns (existing_metadata resized : ZarrMetadata)
    (new_inclusive_min new_exclusive_max : list Index) :
  GetResizedMetadata existing_metadata new_inclusive_min new_exclusive_max
  = Done (Value resized) →
  length new_inclusive_min = length (shape existing_metadata) ∧
  length new_exclusive_max = length (shape existing_metadata) ∧
  Forall (λ lo, lo = 0 ∨ lo = kImplicit) new_inclusive_min ∧
  resized = set_shape existing_metadata
              (zip_with resized_extent (shape existing_metadata)
                 new_exclusive_max).
Proof.
  intros Hdone.
  assert (length new_inclusive_min = length (shape existing_metadata)) as Hmin.
  { unfold GetResizedMetadata in Hdone. case_bool_decide; done. }
  assert (length new_exclusive_max = length (shape existing_metadata)) as Hmax.
  { unfold GetResizedMetadata in Hdone.
    rewrite bool_decide_eq_true_2 in Hdone by done. cbn [assert] in Hdone.
    case_bool_decide; done. }
  destruct (decide (Forall (λ lo, lo = 0 ∨ lo = kImplicit) new_inclusive_min))
    as [Hok|Hbad].
  - rewrite GetResizedMetadata_done in Hdone by done.
    by injection Hdone as <-.
  - exfalso. apply not_Forall_Exists in Hbad; [|intros lo; apply _].
    pose proof (GetResizedMetadata_loop_aborted new_inclusive_min []
                  new_exclusive_max (shape existing_metadata) Hbad) as Hloop.
    cbn in Hloop. unfold GetResizedMetadata in Hdone.
    rewrite !bool_decide_eq_true_2 in Hdone by done. cbn [assert] in Hdone.
    rewrite <- Hmin, Hloop in Hdone. done.
Qed.

(** X5.  A request that leaves every exclusive maximum unspecified returns the
    metadata it was given. *)
Theorem GetResizedMetadata_unspecified (existing_metadata : ZarrMetadata)
    (new_inclusive_min : list Index) :
  length new_inclusive_min = length (shape existing_metadata) →
  Forall (λ lo, lo = 0 ∨ lo = kImplicit) new_inclusive_min →
  GetResizedMetadata existing_metadata new_inclusive_min
    (replicate (length (shape existing_metadata)) kImplicit)
  = Done (Value existing_metadata).
Proof.
  intros Hmin Hok.
  rewrite GetResizedMetadata_done by (by rewrite ?length_replicate).
  by rewrite resized_extent_implicit, set_shape_shape.
Qed.

(** X6.  Resizing is idempotent: the request that produced a metadata value,
    applied to that value, returns it unchanged. *)
Theorem GetResizedMetadata_idempotent (existing_metadata resized : ZarrMetadata)
    (new_inclusive_min new_exclusive_max : list Index) :
  GetResizedMetadata existing_metadata new_inclusive_min new_exclusive_max
  = Done (Value resized) →
  GetResizedMetadata resized new_inclusive_min new_exclusive_max
  = Done (Value resized).
Proof.
  intros (Hmin & Hmax & Hok & ->)%GetResizedMetadata_returns.
  assert (length (zip_with resized_extent (shape existing_metadata)
                    new_exclusive_max)
          = length (shape existing_metadata)) as Hlen
    by (rewrite length_zip_with; lia).
  rewrite GetResizedMetadata_done by (cbn [set_shape shape]; congruence || done).
  cbn [set_shape shape]. rewrite resized_extent_twice.
  by destruct existing_metadata.
Qed.

(** The grid bounds that the source computes for output arguments of the
    rank of the metadata. *)
Lemma GetChunkGridBounds_done (metadata : ZarrMetadata) (bounds : Box)
    (implicit_lower_bounds implicit_upper_bounds : list bool) :
  length (box_origin bounds) = length (shape metadata) →
  length (box_shape bounds) = length (shape metadata) →
  length implicit_lower_bounds = length (shape metadata) →
  length implicit_upper_bounds = length (shape metadata) →
  GetChunkGridBounds metadata bounds implicit_lower_bounds implicit_upper_bounds
  = Done ({| box_origin := replicate (length (shape metadata)) 0;
             box_shape := shape metadata |},
          replicate (length (shape metadata)) false,
          replicate (length (shape metadata)) true).
Proof.
  intros Ho Hs Hl Hu. unfold GetChunkGridBounds, box_rank.
  rewrite Ho, Hl, Hu. rewrite !bool_decide_eq_true_2 by done. cbn [assert].
  unfold std.copy, std.fill. rewrite Hs, Ho, Hl, Hu.
  rewrite decide_True by (cbn; lia). cbn.
  rewrite (drop_ge (box_shape bounds)) by lia. by rewrite app_nil_r.
Qed.

(** X7.  After a resize the grid keeps its rank, so output arguments that fit
    the old metadata fit the new one, and the bounds report the resized
    extents. *)
Theorem GetChunkGridBounds_resized (existing_metadata resized : ZarrMetadata)
    (new_inclusive_min new_exclusive_max : list Index) (bounds : Box)
    (implicit_lower_bounds implicit_upper_bounds : list bool) :
  let n := length (shape existing_metadata) in
  GetResizedMetadata existing_metadata new_inclusive_min new_exclusive_max
  = Done (Value resized) →
  length (box_origin bounds) = n →
  length (box_shape bounds) = n →
  length implicit_lower_bounds = n →
  length implicit_upper_bounds = n →
  GetChunkGridBounds resized bounds implicit_lower_bounds implicit_upper_bounds
  = Done ({| box_origin := replicate n 0;
             box_shape := zip_with resized_extent (shape existing_metadata)
                            new_exclusive_max |},
          replicate n false, replicate n true).
Proof.
  cbn zeta.
  intros (Hmin & Hmax & Hok & ->)%GetResizedMetadata_returns Ho Hs Hl Hu.
  assert (length (shape (set_shape existing_metadata
            (zip_with resized_extent (shape existing_metadata)
               new_exclusive_max)))
          = length (shape existing_metadata)) as Hlen
    by (cbn [set_shape shape]; rewrite length_zip_with; lia).
  rewrite GetChunkGridBounds_done by congruence.
  by rewrite Hlen.
Qed.

(** X8.  [GetChunkGridBounds] returns exactly when its three output arguments
    have the rank of the metadata; otherwise an assertion stops it. *)
Theorem GetChunkGridBounds_returns (metadata : ZarrMetadata) (bounds : Box)
    (implicit_lower_bounds implicit_upper_bounds : list bool) :
  length (box_shape bounds) = length (box_origin bounds) →
  (GetChunkGridBounds metadata bounds implicit_lower_bounds
     implicit_upper_bounds ≠ Aborted
   ↔ length (box_origin bounds) = length (shape metadata) ∧
     length implicit_lower_bounds = length (shape metadata) ∧
     length implicit_upper_bounds = length (shape metadata)).
Proof.
  intros Hbox. split.
  - intros Hdone. unfold GetChunkGridBounds, box_rank in Hdone.
    repeat (case_bool_decide; [|done]). lia.
  - intros (Ho & Hl & Hu). by rewrite GetChunkGridBounds_done by congruence.
Qed.

(** * The alias and the spec *)

(** X9.  Once the alias has been loaded, loading it again with the same value
    changes nothing, and loading it with the other value fails and changes
    nothing. *)
Theorem key_encoding_reload (obj : SpecData) (value again : DimensionSeparator) :
  (json_binder_key_encoding obj value).1 = OkStatus →
  let loaded := (json_binder_key_encoding obj value).2 in
  json_binder_key_encoding loaded again =
  if decide (again = value) then (OkStatus, loaded)
  else (InvalidArgumentError
          ("value (" +:+ json_dump (DimensionSeparator_to_json again) +:+
           ") does not match value in metadata (" +:+
           json_dump (DimensionSeparator_to_json value) +:+ ")"),
        loaded).
Proof.
  intros Hok. cbn zeta.
  assert ((json_binder_key_encoding obj value).2 =
          set_partial_metadata obj
            (set_dimension_separator (partial_metadata obj) (Some value)))
    as Hloaded.
  { unfold json_binder_key_encoding in *.
    destruct (pm_dimension_separator (partial_metadata obj)) as [sep|];
      [|done].
    case_decide; [discriminate Hok | done]. }
  rewrite Hloaded. unfold json_binder_key_encoding. cbn.
  destruct (decide (again = value)) as [->|Hne].
  - by rewrite decide_False by (by intros H; apply H).
  - by rewrite decide_True by done.
Qed.

(** X10.  The alias reaches the chunk keys: a spec that has loaded it, opened on
    stored metadata that record no separator, gives keys joined by the
    character of the alias. *)
Theorem key_encoding_chunk_keys (obj : SpecData) (value : DimensionSeparator)
    (metadata : ZarrMetadata) (cell_indices : list Index) :
  (json_binder_key_encoding obj value).1 = OkStatus →
  dimension_separator metadata = None →
  GetChunkStorageKey
    (GetDataCache (json_binder_key_encoding obj value).2 metadata)
    metadata cell_indices
  = store_path obj +:+
    join_indices (GetDimensionSeparatorChar value) cell_indices.
Proof.
  intros Hok Hnone. unfold GetChunkStorageKey.
  rewrite EncodeChunkIndices_join.
  unfold json_binder_key_encoding in *.
  destruct (pm_dimension_separator (partial_metadata obj)) as [sep|].
  - case_decide; [discriminate Hok|].
    cbn. unfold GetDimensionSeparator. by rewrite Hnone.
  - cbn. unfold GetDimensionSeparator. by rewrite Hnone.
Qed.

(** X11.  A spec bound from a cache opens the same cache again: on any metadata
    that record no separator or the one of the cache, and under the path of
    the cache, [GetDataCache] gives the key prefix and the separator of the
    cache back, whatever the spec held before. *)
Theorem GetBoundSpecData_reopens (self : DataCache) (spec_base : SpecData)
    (metadata reopened : ZarrMetadata) (component_index : nat) :
  store_path spec_base = key_prefix_ self →
  dimension_separator reopened = None ∨
  dimension_separator reopened = Some (dimension_separator_ self) →
  let bound := GetBoundSpecData self spec_base metadata component_index in
  bound.1 = OkStatus ∧
  key_prefix_ (GetDataCache bound.2 reopened) = key_prefix_ self ∧
  dimension_separator_ (GetDataCache bound.2 reopened)
  = dimension_separator_ self ∧
  ∀ cell_indices,
    GetChunkStorageKey (GetDataCache bound.2 reopened) reopened cell_indices
    = GetChunkStorageKey self reopened cell_indices.
Proof.
  intros Hpath Hsep. cbn zeta. unfold GetChunkStorageKey, GetDataCache,
    GetBoundSpecData, GetDimensionSeparator. cbn. rewrite Hpath.
  assert (match dimension_separator reopened with
          | Some sep => sep
          | None => dimension_separator_ self
          end = dimension_separator_ self) as ->
    by (by destruct Hsep as [-> | ->]).
  done.
Qed.

(** X12.  The cache made by [GetDataCache] is reopened by its own bound spec on
    the metadata it was made from. *)
Theorem GetDataCache_bound (spec spec_base : SpecData)
    (metadata : ZarrMetadata) (component_index : nat) :
  store_path spec_base = store_path spec →
  GetDataCache
    (GetBoundSpecData (GetDataCache spec metadata) spec_base metadata
       component_index).2 metadata
  = GetDataCache spec metadata.
Proof.
  intros Hpath. unfold GetDataCache, GetBoundSpecData, GetDimensionSeparator.
  cbn. rewrite Hpath. by destruct (dimension_separator metadata).
Qed.

(** X13.  With [minimal_spec] set, nothing of the partial metadata recorded in the
    spec survives [ApplyOptions]: two specs that differ in their partial
    metadata only give the same result. *)
Theorem ApplyOptions_minimal_spec (spec : SpecData) (options : SpecOptions)
    (recorded : ZarrPartialMetadata) :
  minimal_spec options = true →
  ApplyOptions (set_partial_metadata spec recorded) options
  = ApplyOptions spec options ∧
  ApplyOptions spec options
  = Base_ApplyOptions
      (set_partial_metadata spec ZarrPartialMetadata_default) options.
Proof. intros Hminimal. unfold ApplyOptions. by rewrite Hminimal. Qed.

(** X14.  Specs that lead to the same data cache on given metadata get the same
    data cache key, wherever they record the separator; and when the
    encoding of the key tells paths and separators apart, specs with the
    same key lead to the same data cache. *)
Theorem GetDataCacheKey_shared (spec other : SpecData)
    (metadata : ZarrMetadata) :
  (GetDataCache spec metadata = GetDataCache other metadata →
   GetDataCacheKey spec metadata = GetDataCacheKey other metadata) ∧
  ((∀ path1 sep1 path2 sep2,
      internal_EncodeCacheKey path1 sep1 metadata =
      internal_EncodeCacheKey path2 sep2 metadata →
      path1 = path2 ∧ sep1 = sep2) →
   GetDataCacheKey spec metadata = GetDataCacheKey other metadata →
   GetDataCache spec metadata = GetDataCache other metadata).
Proof.
  unfold GetDataCache, GetDataCacheKey. cbn zeta. split.
  - intros [= -> ->]. done.
  - intros Hinj [-> ->]%Hinj. done.
Qed.

(** * The chunk grid *)

Lemma at_index_middle {A} (l1 l2 : list A) (x : A) :
  at_index (l1 ++ x :: l2) (Z.of_nat (length l1)) = Some x.
Proof.
  unfold at_index. rewrite decide_True by lia. rewrite Nat2Z.id.
  by apply list_lookup_middle.
Qed.

Lemma write_at_middle {A} (l1 l2 : list A) (old x : A) :
  write_at (l1 ++ old :: l2) (Z.of_nat (length l1)) x = Some (l1 ++ x :: l2).
Proof.
  unfold write_at.
  rewrite decide_True by (rewrite length_app; cbn [length]; lia).
  rewrite Nat2Z.id. rewrite insert_app_r_alt by lia.
  by rewrite Nat.sub_diag.
Qed.

(** The first loop copies the leading extents of the chunk and sets the
    leading strides to zero. *)
Lemma GetChunkGridSpecification_leading_done todo :
  ∀ (chunk_done chunk_rest shape_done shape_rest strides_done strides_rest
       : list Index),
  length shape_done = length chunk_done →
  length strides_done = length chunk_done →
  (length todo ≤ length shape_rest)%nat →
  (length todo ≤ length strides_rest)%nat →
  GetChunkGridSpecification_leading (length todo)
    (Z.of_nat (length chunk_done)) (chunk_done ++ todo ++ chunk_rest)
    (shape_done ++ shape_rest) (strides_done ++ strides_rest)
  = Done (shape_done ++ todo ++ drop (length todo) shape_rest,
          strides_done ++ replicate (length todo) 0 ++
          drop (length todo) strides_rest).
Proof.
  induction todo as [|size todo IH];
    intros chunk_done chunk_rest shape_done shape_rest strides_done
      strides_rest Hshape Hstrides Hsr Hbr.
  - done.
  - destruct shape_rest as [|s0 shape_rest]; [cbn in Hsr; lia|].
    destruct strides_rest as [|b0 strides_rest]; [cbn in Hbr; lia|].
    cbn [length] in Hsr, Hbr. cbn [length GetChunkGridSpecification_leading].
    rewrite <- app_comm_cons, at_index_middle. cbn.
    rewrite <- Hshape, write_at_middle. cbn.
    rewrite Hshape, <- Hstrides, write_at_middle. cbn.
    rewrite Hstrides.
    pose proof (IH (chunk_done ++ [size]) chunk_rest (shape_done ++ [size])
                  shape_rest (strides_done ++ [0]) strides_rest) as IH1.
    snoc_step IH1. rewrite Nat2Z.inj_succ, <- Z.add_1_r in IH1.
    rewrite IH1 by lia. done.
Qed.

(** The second loop checks the trailing extents of the chunk against the
    shape of the fill value and copies the strides of the fill value. *)
Lemma GetChunkGridSpecification_trailing_done (start : nat)
    (fill_value : SharedArray) todo :
  ∀ (chunk_done fill_done fill_strides_done fill_strides_todo shape_done
       shape_rest strides_done strides_rest : list Index),
  array_shape fill_value = fill_done ++ todo →
  array_byte_strides fill_value = fill_strides_done ++ fill_strides_todo →
  length fill_strides_done = length fill_done →
  length fill_strides_todo = length todo →
  length chunk_done = (start + length fill_done)%nat →
  length shape_done = length chunk_done →
  length strides_done = length chunk_done →
  (length todo ≤ length shape_rest)%nat →
  (length todo ≤ length strides_rest)%nat →
  GetChunkGridSpecification_trailing (length todo)
    (Z.of_nat (length chunk_done)) (Z.of_nat start) (chunk_done ++ todo)
    fill_value (shape_done ++ shape_rest) (strides_done ++ strides_rest)
  = Done (shape_done ++ todo ++ drop (length todo) shape_rest,
          strides_done ++ fill_strides_todo ++
          drop (length todo) strides_rest).
Proof.
  induction todo as [|size todo IH];
    intros chunk_done fill_done fill_strides_done fill_strides_todo shape_done
      shape_rest strides_done strides_rest Hfs Hfb Hfbd Hfbt Hcd Hshape
      Hstrides Hsr Hbr.
  - destruct fill_strides_todo; done.
  - destruct shape_rest as [|s0 shape_rest]; [cbn in Hsr; lia|].
    destruct strides_rest as [|b0 strides_rest]; [cbn in Hbr; lia|].
    destruct fill_strides_todo as [|stride fill_strides_todo]; [done|].
    cbn [length] in Hsr, Hbr, Hfbt.
    cbn [length GetChunkGridSpecification_trailing].
    rewrite at_index_middle. cbn.
    replace (Z.of_nat (length chunk_done) - Z.of_nat start)
      with (Z.of_nat (length fill_done)) by lia.
    rewrite Hfs, at_index_middle. cbn.
    rewrite bool_decide_eq_true_2 by done. cbn.
    rewrite <- Hshape, write_at_middle. cbn.
    rewrite Hfb, <- Hfbd, at_index_middle. cbn.
    rewrite Hshape, <- Hstrides, write_at_middle. cbn.
    rewrite Hstrides.
    pose proof (IH (chunk_done ++ [size]) (fill_done ++ [size])
                  (fill_strides_done ++ [stride]) fill_strides_todo
                  (shape_done ++ [size]) shape_rest
                  (strides_done ++ [stride]) strides_rest) as IH1.
    snoc_step IH1. rewrite Nat2Z.inj_succ, <- Z.add_1_r in IH1.
    rewrite IH1; try lia; done.
Qed.

(** One field: with a consistent fill value the body of the loop yields the
    fill value seen through the shape of a whole chunk. *)
Lemma GetChunkGridSpecification_component_done (metadata : ZarrMetadata)
    (chunked : list DimensionIndex) (field_i : nat) (field : ZarrDTypeField)
    (field_layout : ZarrChunkLayoutField) (stored : SharedArray) :
  layout_fields (chunk_layout metadata) !! field_i = Some field_layout →
  fill_value metadata !! field_i = Some stored →
  field_consistent field field_layout stored →
  length (uninitialized (length (full_chunk_shape field_layout)))
  = length (full_chunk_shape field_layout) →
  GetChunkGridSpecification_component metadata chunked field_i field
  = Done {| component_fill_value :=
              chunk_fill_value field field_layout stored;
            component_bounds_rank :=
              Z.of_nat (length (full_chunk_shape field_layout));
            chunked_to_cell_dimensions := chunked |}.
Proof.
  intros Hlayout Hstored (Hstrides & Hfield & Hrank & Htail) Huninit.
  unfold GetChunkGridSpecification_component. rewrite Hlayout, Hstored. cbn.
  unfold chunk_fill_value.
  replace (if negb (valid stored)
           then AllocateArray_rank0 (field_dtype field) else stored)
    with (effective_fill_value field stored)
    by (unfold effective_fill_value; by destruct (valid stored)).
  set (fill := effective_fill_value field stored) in *.
  set (chunk := full_chunk_shape field_layout) in *.
  unfold array_rank. rewrite bool_decide_eq_true_2 by lia. cbn [assert].
  rewrite Nat2Z.id.
  replace (Z.of_nat (length chunk) - Z.of_nat (length (array_shape fill)))
    with (Z.of_nat (length chunk - length (array_shape fill))) by lia.
  replace (Z.of_nat (length chunk) -
           Z.of_nat (length chunk - length (array_shape fill)))
    with (Z.of_nat (length (array_shape fill))) by lia.
  rewrite !Nat2Z.id.
  set (start := (length chunk - length (array_shape fill))%nat) in *.
  set (garbage := uninitialized (length chunk)) in *.
  assert (length (take start chunk) = start) as Hlead
    by (rewrite length_take; lia).
  pose proof (GetChunkGridSpecification_leading_done (take start chunk)
                [] (drop start chunk) [] garbage [] garbage) as Hloop1.
  rewrite Hlead in Hloop1. cbn [app length] in Hloop1.
  change (Z.of_nat 0) with 0 in Hloop1. rewrite take_drop in Hloop1.
  rewrite Hloop1 by (done || lia). cbn.
  assert (length (drop start chunk) = length (array_shape fill)) as Htrail
    by (by rewrite Htail).
  pose proof (GetChunkGridSpecification_trailing_done start fill
                (drop start chunk) (take start chunk) [] []
                (array_byte_strides fill) (take start chunk)
                (drop start garbage) (replicate start 0)
                (drop start garbage)) as Hloop2.
  rewrite Htrail, Hlead in Hloop2. cbn [app length] in Hloop2.
  rewrite take_drop in Hloop2.
  assert (start + length (array_shape fill) = length chunk)%nat as Hsum
    by (unfold start; lia).
  rewrite Hloop2;
    [|rewrite ?length_replicate, ?length_drop, ?Nat.add_0_r;
      (done || lia) ..].
  cbn. rewrite (app_assoc (take start chunk)), take_drop.
  rewrite drop_drop, !drop_ge by lia. by rewrite !app_nil_r.
Qed.

(** The loop over the fields, with the fields before position [field_i]
    done. *)
Lemma GetChunkGridSpecification_loop_done (metadata : ZarrMetadata)
    (chunked : list DimensionIndex) (todo : list ZarrDTypeField) :
  ∀ (layouts_todo : list ZarrChunkLayoutField) (fills_todo : list SharedArray)
    layouts_done fills_done (components : list Component),
  layout_fields (chunk_layout metadata) = layouts_done ++ layouts_todo →
  fill_value metadata = fills_done ++ fills_todo →
  length fills_done = length layouts_done →
  Forall3 field_consistent todo layouts_todo fills_todo →
  Forall (λ field_layout,
            length (uninitialized (length (full_chunk_shape field_layout)))
            = length (full_chunk_shape field_layout)) layouts_todo →
  GetChunkGridSpecification_loop metadata chunked (length layouts_done) todo
    components
  = Done (components ++
          chunk_grid_components chunked todo layouts_todo fills_todo).
Proof.
  induction todo as [|field todo IH];
    intros layouts_todo fills_todo layouts_done fills_done components
      Hlayouts Hfills Hlen Hall Huninit.
  - cbn. by rewrite app_nil_r.
  - inversion Hall as [|? field_layout stored ? layouts_rest fills_rest
                         Hfield Hrest]; subst.
    apply Forall_cons in Huninit as [Hgarbage Huninit].
    cbn [GetChunkGridSpecification_loop].
    rewrite (GetChunkGridSpecification_component_done metadata chunked
               (length layouts_done) field field_layout stored);
      [|by rewrite Hlayouts; apply list_lookup_middle
       |by rewrite Hfills; apply list_lookup_middle
       |done|done].
    cbn.
    pose proof (IH layouts_rest fills_rest (layouts_done ++ [field_layout])
                  (fills_done ++ [stored])) as IH1.
    snoc_step IH1. rewrite IH1 by (done || lia).
    by rewrite <- app_assoc.
Qed.

Lemma iota_replicate (n : nat) :
  std.iota (replicate n 0) 0 = Z.of_nat <$> seq 0 n.
Proof.
  unfold std.iota. rewrite length_replicate.
  apply list_fmap_ext. intros i x _. lia.
Qed.

(** X15.  For metadata whose fields, field layouts and fill values fit together,
    [GetChunkGridSpecification] returns one component per field, in the
    order of the fields.  The fill value of a component has the shape of a
    whole chunk of the field and the data of the stored fill value, or of a
    newly allocated array of rank zero when none is stored; its strides are
    zero in the leading dimensions and those of the fill value in the
    trailing ones.  Every component maps the chunked dimensions to the
    first cell dimensions, in order. *)
Theorem GetChunkGridSpecification_components (metadata : ZarrMetadata) :
  Forall3 field_consistent (fields (dtype metadata))
    (layout_fields (chunk_layout metadata)) (fill_value metadata) →
  Forall (λ field_layout,
            length (uninitialized (length (full_chunk_shape field_layout)))
            = length (full_chunk_shape field_layout))
    (layout_fields (chunk_layout metadata)) →
  GetChunkGridSpecification metadata
  = Done (chunk_grid_components
            (Z.of_nat <$> seq 0 (length (chunks metadata)))
            (fields (dtype metadata))
            (layout_fields (chunk_layout metadata)) (fill_value metadata)) ∧
  length (chunk_grid_components
            (Z.of_nat <$> seq 0 (length (chunks metadata)))
            (fields (dtype metadata))
            (layout_fields (chunk_layout metadata)) (fill_value metadata))
  = length (fields (dtype metadata)).
Proof.
  intros Hall Huninit. split.
  - unfold GetChunkGridSpecification. cbn zeta. rewrite iota_replicate.
    by rewrite (GetChunkGridSpecification_loop_done metadata _
                  (fields (dtype metadata))
                  (layout_fields (chunk_layout metadata))
                  (fill_value metadata) [] [] []).
  - generalize (Z.of_nat <$> seq 0 (length (chunks metadata))).
    intros chunked. induction Hall as [|???????? IH]; [done|].
    apply Forall_cons in Huninit as [_ Huninit]. cbn. by rewrite IH.
Qed.

(** A field whose stored fill value has more dimensions than the field
    stops the loop over the fields, whatever the other fields are. *)
Lemma GetChunkGridSpecification_loop_aborted (metadata : ZarrMetadata)
    (chunked : list DimensionIndex) (todo : list ZarrDTypeField) :
  ∀ (field_i k : nat) (components : list Component)
    (field : ZarrDTypeField) (stored : SharedArray),
  todo !! k = Some field →
  fill_value metadata !! (field_i + k)%nat = Some stored →
  valid stored = true →
  (length (field_shape field) < length (array_shape stored))%nat →
  GetChunkGridSpecification_loop metadata chunked field_i todo components
  = Aborted.
Proof.
  induction todo as [|first todo IH];
    intros field_i k components field stored Hfield Hstored Hvalid Hrank.
  - done.
  - cbn [GetChunkGridSpecification_loop]. destruct k as [|k].
    + injection Hfield as ->. rewrite Nat.add_0_r in Hstored.
      unfold GetChunkGridSpecification_component.
      destruct (layout_fields (chunk_layout metadata) !! field_i); [|done].
      cbn. rewrite Hstored. cbn. rewrite Hvalid. cbn [negb].
      unfold array_rank. by rewrite bool_decide_eq_false_2 by lia.
    + destruct (GetChunkGridSpecification_component metadata chunked
                  field_i first) as [component|]; [|done].
      cbn. apply (IH (S field_i) k _ field stored); try done.
      by replace (S field_i + k)%nat with (field_i + S k)%nat by lia.
Qed.

(** Metadata in which a stored fill value has more dimensions than its
    field are refused: the construction of the chunk grid stops on the
    assertion and yields no grid. *)
Theorem GetChunkGridSpecification_inconsistent (metadata : ZarrMetadata)
    (field_i : nat) (field : ZarrDTypeField) (stored : SharedArray) :
  fields (dtype metadata) !! field_i = Some field →
  fill_value metadata !! field_i = Some stored →
  valid stored = true →
  (length (field_shape field) < length (array_shape stored))%nat →
  GetChunkGridSpecification metadata = Aborted.
Proof.
  intros Hfield Hstored Hvalid Hrank. unfold GetChunkGridSpecification.
  by apply (GetChunkGridSpecification_loop_aborted metadata _ _ 0 field_i []
              field stored).
Qed.

(** What the second loop has checked when it returns. *)
Lemma GetChunkGridSpecification_trailing_checked (start : DimensionIndex)
    (full_chunk_shape : list Index) (fill_value : SharedArray) (n : nat) :
  ∀ (cell_dim : DimensionIndex) (shape byte_strides : list Index) result,
  GetChunkGridSpecification_trailing n cell_dim start full_chunk_shape
    fill_value shape byte_strides = Done result →
  ∀ j, (j < n)%nat →
    ∃ size,
      at_index full_chunk_shape (cell_dim + Z.of_nat j) = Some size ∧
      at_index (array_shape fill_value) (cell_dim - start + Z.of_nat j)
      = Some size.
Proof.
  induction n as [|n IH]; intros cell_dim shape byte_strides result Hdone j Hj;
    [lia|].
  cbn [GetChunkGridSpecification_trailing] in Hdone.
  destruct (at_index full_chunk_shape cell_dim) as [size|] eqn:Hsize;
    [|done].
  destruct (at_index (array_shape fill_value) (cell_dim - start))
    as [fill_size|] eqn:Hfill; [|done].
  cbn in Hdone. case_bool_decide as Heq; [|done]. cbn in Hdone.
  destruct (write_at shape cell_dim size) as [shape'|]; [|done].
  destruct (at_index (array_byte_strides fill_value) (cell_dim - start))
    as [stride|]; [|done].
  cbn in Hdone.
  destruct (write_at byte_strides cell_dim stride) as [strides'|]; [|done].
  cbn in Hdone. destruct j as [|j].
  - exists size. rewrite !Z.add_0_r. by subst.
  - destruct (IH _ _ _ _ Hdone j ltac:(lia)) as (size' & Hchunk & Hfilled).
    exists size'. split.
    + by replace (cell_dim + Z.of_nat (S j))
        with (cell_dim + 1 + Z.of_nat j) by lia.
    + by replace (cell_dim - start + Z.of_nat (S j))
        with (cell_dim + 1 - start + Z.of_nat j) by lia.
Qed.

(** What the body of the loop over the fields has checked when it
    returns. *)
Lemma GetChunkGridSpecification_component_checked (metadata : ZarrMetadata)
    (chunked : list DimensionIndex) (field_i : nat) (field : ZarrDTypeField)
    (component : Component) :
  GetChunkGridSpecification_component metadata chunked field_i field
  = Done component →
  ∃ field_layout stored,
    layout_fields (chunk_layout metadata) !! field_i = Some field_layout ∧
    fill_value metadata !! field_i = Some stored ∧
    let fill := effective_fill_value field stored in
    (length (array_shape fill) ≤ length (field_shape field))%nat ∧
    (length (array_shape fill) ≤ length (full_chunk_shape field_layout))%nat ∧
    drop (length (full_chunk_shape field_layout) - length (array_shape fill))
      (full_chunk_shape field_layout) = array_shape fill.
Proof.
  unfold GetChunkGridSpecification_component. intros Hdone.
  destruct (layout_fields (chunk_layout metadata) !! field_i)
    as [field_layout|]; [|done].
  destruct (fill_value metadata !! field_i) as [stored|]; [|done].
  cbn in Hdone. exists field_layout, stored. split; [done|]. split; [done|].
  cbn zeta.
  replace (if negb (valid stored)
           then AllocateArray_rank0 (field_dtype field) else stored)
    with (effective_fill_value field stored) in Hdone
    by (unfold effective_fill_value; by destruct (valid stored)).
  set (fill := effective_fill_value field stored) in *.
  set (chunk := full_chunk_shape field_layout) in *.
  unfold array_rank in Hdone. case_bool_decide as Hfield; [|done].
  cbn [assert] in Hdone. split; [lia|].
  destruct (GetChunkGridSpecification_leading _ _ _ _ _) as [[shape1 strides1]|];
    [|done].
  cbn in Hdone.
  destruct (GetChunkGridSpecification_trailing _ _ _ _ _ _ _)
    as [[shape2 strides2]|] eqn:Htrailing; [|done].
  pose proof (GetChunkGridSpecification_trailing_checked _ _ _ _ _ _ _ _
                Htrailing) as Hchecked.
  replace (Z.to_nat (Z.of_nat (length chunk) -
                     (Z.of_nat (length chunk) -
                      Z.of_nat (length (array_shape fill)))))
    with (length (array_shape fill)) in Hchecked by lia.
  assert (length (array_shape fill) ≤ length chunk)%nat as Hrank.
  { destruct (array_shape fill) as [|first rest] eqn:Hshape; [cbn; lia|].
    destruct (Hchecked 0%nat ltac:(cbn; lia)) as (size & Hchunk & _).
    unfold at_index in Hchunk. case_decide as Hstart; [|done].
    cbn [length] in *. lia. }
  split; [done|].
  apply list_eq. intros j. rewrite lookup_drop.
  destruct (decide (j < length (array_shape fill))%nat) as [Hj|Hj].
  - destruct (Hchecked j Hj) as (size & Hchunk & Hfilled).
    unfold at_index in Hchunk, Hfilled.
    rewrite decide_True in Hchunk by lia.
    rewrite decide_True in Hfilled by lia.
    replace (Z.to_nat (Z.of_nat (length chunk) -
                       Z.of_nat (length (array_shape fill)) + Z.of_nat j))
      with (length chunk - length (array_shape fill) + j)%nat in Hchunk
      by lia.
    replace (Z.to_nat (Z.of_nat (length chunk) -
                       Z.of_nat (length (array_shape fill)) -
                       (Z.of_nat (length chunk) -
                        Z.of_nat (length (array_shape fill))) + Z.of_nat j))
      with j in Hfilled by lia.
    by rewrite Hchunk, Hfilled.
  - rewrite !lookup_ge_None_2; [done | lia | lia].
Qed.

(** The fields that the loop has gone through when it returns. *)
Lemma GetChunkGridSpecification_loop_checked (metadata : ZarrMetadata)
    (chunked : list DimensionIndex) (todo : list ZarrDTypeField) :
  ∀ (field_i : nat) (components result : list Component),
  GetChunkGridSpecification_loop metadata chunked field_i todo components
  = Done result →
  ∀ k field, todo !! k = Some field →
    ∃ component,
      GetChunkGridSpecification_component metadata chunked (field_i + k) field
      = Done component.
Proof.
  induction todo as [|first todo IH];
    intros field_i components result Hdone k field Hfield; [done|].
  cbn [GetChunkGridSpecification_loop] in Hdone.
  destruct (GetChunkGridSpecification_component metadata chunked field_i first)
    as [component|] eqn:Hfirst; [|done].
  cbn in Hdone. destruct k as [|k].
  - injection Hfield as <-. rewrite Nat.add_0_r. by exists component.
  - replace (field_i + S k)%nat with (S field_i + k)%nat by lia.
    by apply (IH _ _ _ Hdone).
Qed.

(** X16.  [GetChunkGridSpecification] yields a grid only for metadata that fit
    together: every field has a layout and a fill value, the fill value in
    force has no more dimensions than the field, and its shape is that of
    the last dimensions of a chunk of the field. *)
Theorem GetChunkGridSpecification_checked (metadata : ZarrMetadata)
    (components : list Component) (field_i : nat) (field : ZarrDTypeField) :
  GetChunkGridSpecification metadata = Done components →
  fields (dtype metadata) !! field_i = Some field →
  ∃ field_layout stored,
    layout_fields (chunk_layout metadata) !! field_i = Some field_layout ∧
    fill_value metadata !! field_i = Some stored ∧
    let fill := effective_fill_value field stored in
    (length (array_shape fill) ≤ length (field_shape field))%nat ∧
    (length (array_shape fill) ≤ length (full_chunk_shape field_layout))%nat ∧
    drop (length (full_chunk_shape field_layout) - length (array_shape fill))
      (full_chunk_shape field_layout) = array_shape fill.
Proof.
  unfold GetChunkGridSpecification. intros Hdone Hfield.
  destruct (GetChunkGridSpecification_loop_checked _ _ _ _ _ _ Hdone
              field_i field Hfield) as (component & Hcomponent).
  by apply (GetChunkGridSpecification_component_checked _ _ _ _ _ Hcomponent).
Qed.

(** * Fill values, again *)

(** X17.  Without a valid transform, or without a valid fill value, no rank is
    compared and nothing is broadcast: [SpecGetFillValue] returns the fill
    value it selected as it is. *)
Theorem SpecGetFillValue_as_is (spec : SpecData)
    (transform : IndexTransformView) (stored : SharedArray) :
  SpecGetFillValue_fill_value spec = Done (Value stored) →
  valid stored = false ∨ transform_valid transform = false →
  SpecGetFillValue spec transform = Done (Value stored).
Proof.
  intros Hsel Hinvalid. unfold SpecGetFillValue. rewrite Hsel. cbn.
  destruct Hinvalid as [-> | ->]; [done|]. by rewrite orb_true_r.
Qed.

(** X18.  The fill values of the partial metadata take the place of the one of
    the schema only together with a dtype.  When both are there, a selected
    field that does not resolve makes [SpecGetFillValue] fail with the
    error of [GetFieldIndex], whatever the schema and the transform are;
    the fill value of the schema is no fallback. *)
Theorem SpecGetFillValue_selection (spec : SpecData)
    (transform : IndexTransformView) :
  (pm_dtype (partial_metadata spec) = None ∨
   pm_fill_value (partial_metadata spec) = None →
   SpecGetFillValue_fill_value spec
   = Done (Value (schema_fill_value (schema spec)))) ∧
  (∀ metadata_dtype metadata_fill_value status,
     pm_dtype (partial_metadata spec) = Some metadata_dtype →
     pm_fill_value (partial_metadata spec) = Some metadata_fill_value →
     GetFieldIndex metadata_dtype (selected_field spec) = Error status →
     SpecGetFillValue spec transform = Done (Error status)) ∧
  (∀ metadata_dtype metadata_fill_value field_index,
     pm_dtype (partial_metadata spec) = Some metadata_dtype →
     pm_fill_value (partial_metadata spec) = Some metadata_fill_value →
     GetFieldIndex metadata_dtype (selected_field spec) = Value field_index →
     SpecGetFillValue_fill_value spec
     = of_option (Value <$> metadata_fill_value !! field_index)).
Proof.
  unfold SpecGetFillValue, SpecGetFillValue_fill_value. split; [|split].
  - intros [-> | ->]; [done|]. by destruct (pm_dtype _).
  - by intros metadata_dtype metadata_fill_value status -> -> ->.
  - intros metadata_dtype metadata_fill_value field_index -> -> ->.
    by destruct (metadata_fill_value !! field_index).
Qed.

(** X19.  The spec bound from a cache names the stored fill value of the
    component: when the selected field that [GetBoundSpecData] writes
    resolves to the component again, [SpecGetFillValue] on the bound spec
    works on the array that [GetFillValue] reads from the metadata, not on
    the fill value of the schema. *)
Theorem SpecGetFillValue_bound (self : DataCache) (spec_base : SpecData)
    (metadata : ZarrMetadata) (component : nat) (stored : SharedArray) :
  GetFieldIndex (dtype metadata)
    (EncodeSelectedField component (dtype metadata)) = Value component →
  fill_value metadata !! component = Some stored →
  SpecGetFillValue_fill_value
    (GetBoundSpecData self spec_base metadata component).2
  = Done (Value stored).
Proof.
  intros Hfield Hstored. unfold SpecGetFillValue_fill_value, GetBoundSpecData.
  cbn. by rewrite Hfield, Hstored.
Qed.

(** * Registered drivers *)

(** X20.  A driver whose bound spec can be obtained has the cache key of that
    spec, in the bound state, so that two drivers with the same bound spec
    data have the same key; a driver whose bound spec cannot be obtained
    falls back to the key of the base class, and the error it reports is
    never the OK status. *)
Theorem RegisteredDriver_cache_key (self : Derived) (out : string) :
  (∀ spec,
     RegisteredDriver_GetBoundSpec self = Value spec →
     RegisteredDriver_EncodeCacheKey self out
     = RegisteredDriverSpec_EncodeCacheKey spec out ∧
     context_binding_state_ spec = bound ∧
     ∀ other, RegisteredDriver_GetBoundSpec other = Value spec →
              RegisteredDriver_EncodeCacheKey other out
              = RegisteredDriver_EncodeCacheKey self out) ∧
  (∀ status,
     RegisteredDriver_GetBoundSpec self = Error status →
     RegisteredDriver_EncodeCacheKey self out = Driver_EncodeCacheKey self out ∧
     code status ≠ kOk).
Proof.
  unfold RegisteredDriver_GetBoundSpec, RegisteredDriver_EncodeCacheKey,
    RegisteredDriverSpec_EncodeCacheKey.
  destruct (Derived_GetBoundSpecData self DerivedSpecData_default)
    as [status data].
  split.
  - intros spec Hspec. destruct (ok status) eqn:Hok; [|done].
    injection Hspec as <-. cbn. split; [done|]. split; [done|].
    intros other.
    destruct (Derived_GetBoundSpecData other DerivedSpecData_default)
      as [other_status other_data].
    destruct (ok other_status); [|done]. by intros [= ->].
  - intros failed Hspec. destruct (ok status) eqn:Hok; [done|].
    injection Hspec as <-. split; [done|].
    unfold ok in Hok. by apply bool_decide_eq_false in Hok.
Qed.

End Driver.

(** * The statements at the sample store *)


Lemma key_encoding_alias_witness :
  (json_binder_key_encoding Sample.json_dump (λ _, []) Sample.spec
     kSlashSeparated).1 = OkStatus ∧
  (json_binder_key_encoding Sample.json_dump (λ _, []) Sample.spec_with_shape
     kSlashSeparated).1 = OkStatus ∧
  code (json_binder_key_encoding Sample.json_dump (λ _, [])
          Sample.spec_with_shape kDotSeparated).1 = kInvalidArgument.
Proof.
  split; [|split].
  - destruct (key_encoding_alias Sample.json_dump (λ _, []) Sample.spec
                kSlashSeparated) as (Habsent & _).
    by rewrite Habsent.
  - destruct (key_encoding_alias Sample.json_dump (λ _, [])
                Sample.spec_with_shape kSlashSeparated) as (_ & Hsame & _).
    destruct Hsame as [Hsame _]; [reflexivity|]. by rewrite Hsame.
  - destruct (key_encoding_alias Sample.json_dump (λ _, [])
                Sample.spec_with_shape kDotSeparated) as (_ & _ & Hother & _).
    by apply (Hother kSlashSeparated).
Defined.

Lemma Create_already_exists_witness :
  Create Sample.GetNewMetadata Sample.MaybeAnnotateStatus
    Sample.spec_with_shape None = Value Sample.metadata ∧
  ∃ annotation,
    Create Sample.GetNewMetadata Sample.MaybeAnnotateStatus Sample.spec None =
    Error (Sample.MaybeAnnotateStatus
             (InvalidArgumentError "shape must be specified") annotation).
Proof.
  split.
  - apply (Create_already_exists Sample.GetNewMetadata
             Sample.MaybeAnnotateStatus Sample.spec_with_shape);
      reflexivity.
  - apply (Create_already_exists Sample.GetNewMetadata
             Sample.MaybeAnnotateStatus Sample.spec);
      reflexivity.
Defined.

Lemma DecodeMetadata_cases_witness :
  DecodeMetadata Sample.json_parse Sample.FromJson "array/" "not json"
  = Error (FailedPreconditionError "Invalid JSON") ∧
  DecodeMetadata Sample.json_parse Sample.FromJson "array/" "4,4,4"
  = Error (InvalidArgumentError "shape of rank 2 expected") ∧
  DecodeMetadata Sample.json_parse Sample.FromJson "array/" "4,8"
  = Value (set_shape Sample.metadata [4; 8]).
Proof.
  split; [|split].
  - destruct (DecodeMetadata_cases Sample.json_parse Sample.FromJson "array/"
                "not json") as (_ & Hinvalid & _).
    by destruct Hinvalid.
  - destruct (DecodeMetadata_cases Sample.json_parse Sample.FromJson "array/"
                "4,4,4") as (_ & _ & Hparsed & _).
    by rewrite (Hparsed [4; 4; 4]).
  - destruct (DecodeMetadata_cases Sample.json_parse Sample.FromJson "array/"
                "4,8") as (_ & _ & Hparsed & _).
    by rewrite (Hparsed [4; 8]).
Defined.

Lemma ValidateMetadataCompatibility_iff_witness :
  ValidateMetadataCompatibility Sample.json_dump Sample.to_json
    Sample.metadata (set_shape Sample.metadata [4; 8]) = OkStatus ∧
  code (ValidateMetadataCompatibility Sample.json_dump Sample.to_json
          Sample.metadata Sample.other_chunks) = kFailedPrecondition.
Proof.
  split.
  - apply (ValidateMetadataCompatibility_iff Sample.json_dump Sample.to_json
             Sample.metadata (set_shape Sample.metadata [4; 8]));
      by repeat split.
  - apply (ValidateMetadataCompatibility_iff Sample.json_dump Sample.to_json
             Sample.metadata Sample.other_chunks).
    intros (_ & Hchunks & _). discriminate Hchunks.
Defined.

Lemma GetChunkGridBounds_spec_witness :
  GetChunkGridBounds Sample.metadata
    {| box_origin := [7; 7]; box_shape := [1; 1] |}
    [true; true] [false; false]
  = Done ({| box_origin := [0; 0]; box_shape := [4; 4] |},
          [false; false], [true; true]).
Proof.
  apply (GetChunkGridBounds_spec Sample.metadata
           {| box_origin := [7; 7]; box_shape := [1; 1] |}
           [true; true] [false; false]); reflexivity.
Defined.

Lemma GetFillValue_unset_witness :
  GetFillValue Sample.kInfIndex Sample.IndexDomainBuilder_shape
    Sample.IndexDomainBuilder_Finalize Sample.TransformOutputBroadcastableArray
    Sample.driver (true, 2) = Done (Value null_array).
Proof.
  apply (GetFillValue_unset Sample.kInfIndex Sample.IndexDomainBuilder_shape
           Sample.IndexDomainBuilder_Finalize
           Sample.TransformOutputBroadcastableArray Sample.driver (true, 2)
           null_array); reflexivity.
Defined.

Lemma GetResizedMetadata_spec_witness :
  (∃ resized,
     GetResizedMetadata Sample.kImplicit Sample.metadata
       [0; Sample.kImplicit] [Sample.kImplicit; 8] = Done (Value resized) ∧
     shape resized = [4; 8] ∧ chunks resized = [2; 2] ∧
     dtype resized = dtype Sample.metadata) ∧
  GetResizedMetadata Sample.kImplicit Sample.metadata [0; 1] [4; 8] = Aborted.
Proof.
  split.
  - destruct (GetResizedMetadata_spec Sample.kImplicit Sample.metadata
                [0; Sample.kImplicit] [Sample.kImplicit; 8])
      as [Hresized _]; [reflexivity | reflexivity |].
    destruct Hresized
      as (resized & Hdone & _ & _ & Hshape & _ & _ & Hchunks & Hdtype & _).
    { apply Forall_cons_2; [by left|].
      apply Forall_cons_2; [by right|]. apply Forall_nil_2. }
    exists resized. by rewrite Hshape, Hchunks, Hdtype.
  - apply (GetResizedMetadata_spec Sample.kImplicit Sample.metadata
             [0; 1] [4; 8]); [reflexivity | reflexivity |].
    intros Hall. apply Forall_cons in Hall as [_ Hall].
    apply Forall_cons in Hall as [[Hone | Hone] _]; discriminate Hone.
Defined.



Lemma GetChunkStorageKey_injective_witness :
  DecodeChunkStorageKey Sample.data_cache "array/1/0" = Some [1; 0] ∧
  GetChunkStorageKey Sample.data_cache Sample.metadata [10] ≠
  GetChunkStorageKey Sample.data_cache Sample.metadata [1; 0].
Proof.
  destruct (GetChunkStorageKey_injective Sample.data_cache Sample.metadata
              [1; 0]) as (_ & Hdecode & Hinjective).
  split; [exact Hdecode|].
  intros Hkey. apply Hinjective in Hkey. discriminate Hkey.
Defined.

(** * Further statements at the sample stores *)

Lemma GetMetadataStorageKey_injective_witness :
  GetMetadataStorageKey "array/" ≠ GetMetadataStorageKey "other/".
Proof.
  intros Hkey. apply GetMetadataStorageKey_injective in Hkey.
  discriminate Hkey.
Defined.

Lemma GetChunkStorageKey_base_path_witness :
  GetChunkStorageKey Sample.data_cache Sample.metadata [] = "array/" ∧
  GetChunkStorageKey Sample.data_cache Sample.metadata [0; 0] ≠ "array/".
Proof.
  split.
  - by apply (GetChunkStorageKey_base_path Sample.data_cache Sample.metadata []).
  - intros Hkey.
    apply (GetChunkStorageKey_base_path Sample.data_cache Sample.metadata
             [0; 0]) in Hkey.
    discriminate Hkey.
Defined.

Lemma GetChunkStorageKey_separator_witness :
  GetChunkStorageKey Sample.data_cache Sample.metadata [7]
  = GetChunkStorageKey (cache Sample.vector_driver) Sample.metadata [7] ∧
  GetChunkStorageKey Sample.data_cache Sample.metadata [1; 0]
  ≠ GetChunkStorageKey (cache Sample.vector_driver) Sample.metadata [1; 0].
Proof.
  split.
  - apply (GetChunkStorageKey_separator Sample.data_cache
             (cache Sample.vector_driver) Sample.metadata [7]);
      [reflexivity | discriminate | cbn; lia].
  - intros Hkey.
    apply (GetChunkStorageKey_separator Sample.data_cache
             (cache Sample.vector_driver) Sample.metadata [1; 0]) in Hkey;
      [cbn in Hkey; lia | reflexivity | discriminate].
Defined.

Lemma GetResizedMetadata_unspecified_witness :
  GetResizedMetadata Sample.kImplicit Sample.metadata [0; 0]
    [Sample.kImplicit; Sample.kImplicit]
  = Done (Value Sample.metadata).
Proof.
  apply (GetResizedMetadata_unspecified Sample.kImplicit Sample.metadata
           [0; 0]); [reflexivity|].
  apply Forall_cons_2; [by left|].
  apply Forall_cons_2; [by left|]. apply Forall_nil_2.
Defined.

Lemma GetResizedMetadata_idempotent_witness :
  GetResizedMetadata Sample.kImplicit (set_shape Sample.metadata [4; 8])
    [0; 0] [Sample.kImplicit; 8]
  = Done (Value (set_shape Sample.metadata [4; 8])).
Proof.
  apply (GetResizedMetadata_idempotent Sample.kImplicit Sample.metadata
           (set_shape Sample.metadata [4; 8]) [0; 0] [Sample.kImplicit; 8]).
  reflexivity.
Defined.

Lemma GetChunkGridBounds_resized_witness :
  GetChunkGridBounds (set_shape Sample.metadata [4; 8])
    {| box_origin := [7; 7]; box_shape := [1; 1] |}
    [true; true] [false; false]
  = Done ({| box_origin := [0; 0]; box_shape := [4; 8] |},
          [false; false], [true; true]).
Proof.
  apply (GetChunkGridBounds_resized Sample.kImplicit Sample.metadata
           (set_shape Sample.metadata [4; 8]) [0; 0] [Sample.kImplicit; 8]
           {| box_origin := [7; 7]; box_shape := [1; 1] |}
           [true; true] [false; false]); reflexivity.
Defined.

Lemma GetChunkGridBounds_returns_witness :
  GetChunkGridBounds Sample.metadata
    {| box_origin := [7; 7]; box_shape := [1; 1] |}
    [true; true] [false; false] ≠ Aborted ∧
  ¬ (GetChunkGridBounds Sample.metadata
       {| box_origin := [7]; box_shape := [1] |} [true] [false] ≠ Aborted).
Proof.
  split.
  - by apply (GetChunkGridBounds_returns Sample.metadata
                {| box_origin := [7; 7]; box_shape := [1; 1] |}
                [true; true] [false; false]).
  - intros Hdone.
    apply (GetChunkGridBounds_returns Sample.metadata
             {| box_origin := [7]; box_shape := [1] |} [true] [false])
      in Hdone; [|reflexivity].
    destruct Hdone as [Hrank _]. discriminate Hrank.
Defined.

Lemma key_encoding_reload_witness :
  json_binder_key_encoding Sample.json_dump (λ _, [])
    (json_binder_key_encoding Sample.json_dump (λ _, []) Sample.spec
       kSlashSeparated).2 kSlashSeparated
  = (OkStatus,
     (json_binder_key_encoding Sample.json_dump (λ _, []) Sample.spec
        kSlashSeparated).2) ∧
  code (json_binder_key_encoding Sample.json_dump (λ _, [])
          (json_binder_key_encoding Sample.json_dump (λ _, []) Sample.spec
             kSlashSeparated).2 kDotSeparated).1
  = kInvalidArgument.
Proof.
  split.
  - by rewrite (key_encoding_reload Sample.json_dump (λ _, []) Sample.spec
                  kSlashSeparated kSlashSeparated).
  - by rewrite (key_encoding_reload Sample.json_dump (λ _, []) Sample.spec
                  kSlashSeparated kDotSeparated).
Defined.

Lemma key_encoding_chunk_keys_witness :
  GetChunkStorageKey
    (GetDataCache
       (json_binder_key_encoding Sample.json_dump (λ _, []) Sample.spec
          kSlashSeparated).2 Sample.metadata)
    Sample.metadata [1; 0]
  = "array/" +:+ join_indices "/" [1; 0].
Proof.
  apply (key_encoding_chunk_keys Sample.json_dump (λ _, []) Sample.spec
           kSlashSeparated Sample.metadata [1; 0]); reflexivity.
Defined.

Lemma GetBoundSpecData_reopens_witness :
  GetChunkStorageKey
    (GetDataCache
       (GetBoundSpecData Sample.EncodeSelectedField Sample.data_cache
          Sample.spec Sample.vector_metadata 0).2 Sample.metadata)
    Sample.metadata [1; 0]
  = GetChunkStorageKey Sample.data_cache Sample.metadata [1; 0].
Proof.
  apply (GetBoundSpecData_reopens Sample.EncodeSelectedField Sample.data_cache
           Sample.spec Sample.vector_metadata Sample.metadata 0);
    [reflexivity | by left].
Defined.

Lemma GetDataCache_bound_witness :
  GetDataCache
    (GetBoundSpecData Sample.EncodeSelectedField
       (GetDataCache Sample.spec_with_shape Sample.metadata) Sample.spec
       Sample.metadata 0).2 Sample.metadata
  = GetDataCache Sample.spec_with_shape Sample.metadata.
Proof.
  apply (GetDataCache_bound Sample.EncodeSelectedField Sample.spec_with_shape
           Sample.spec Sample.metadata 0); reflexivity.
Defined.

Lemma ApplyOptions_minimal_spec_witness :
  ApplyOptions Sample.dynamic_rank Sample.minimal_spec Sample.Base_ApplyOptions
    (set_partial_metadata Sample.spec Sample.with_shape) true
  = ApplyOptions Sample.dynamic_rank Sample.minimal_spec
      Sample.Base_ApplyOptions Sample.spec true.
Proof.
  apply (ApplyOptions_minimal_spec Sample.dynamic_rank Sample.minimal_spec
           Sample.Base_ApplyOptions Sample.spec true Sample.with_shape);
    reflexivity.
Defined.

Lemma GetDataCacheKey_shared_witness :
  GetDataCacheKey Sample.EncodeCacheKey Sample.spec Sample.metadata
  ≠ GetDataCacheKey Sample.EncodeCacheKey Sample.spec_with_shape
      Sample.metadata.
Proof.
  intros Hkey.
  apply (GetDataCacheKey_shared Sample.EncodeCacheKey Sample.spec
           Sample.spec_with_shape Sample.metadata) in Hkey.
  - discriminate Hkey.
  - intros path1 sep1 path2 sep2 [= Hsep ->].
    split; [done|]. by destruct sep1, sep2.
Defined.

Lemma GetChunkGridSpecification_components_witness :
  GetChunkGridSpecification Sample.uninitialized Sample.AllocateArray_data
    Sample.vector_metadata
  = Done [ {| component_fill_value :=
                {| array_data := Some 4096%N; array_dtype := Some "<f4";
                   array_shape := [2; 2; 3];
                   array_byte_strides := [0; 0; 4] |};
              component_bounds_rank := 3;
              chunked_to_cell_dimensions := [0; 1] |} ] ∧
  GetChunkGridSpecification Sample.uninitialized Sample.AllocateArray_data
    Sample.metadata
  = Done [ {| component_fill_value :=
                {| array_data := Some 8192%N; array_dtype := Some "<f4";
                   array_shape := [2; 2];
                   array_byte_strides := [0; 0] |};
              component_bounds_rank := 2;
              chunked_to_cell_dimensions := [0; 1] |} ].
Proof.
  split.
  - apply (GetChunkGridSpecification_components Sample.uninitialized
             Sample.AllocateArray_data Sample.vector_metadata).
    + apply Forall3_cons; [|apply Forall3_nil].
      unfold field_consistent. cbn. repeat split; lia.
    + apply Forall_cons_2; [reflexivity | apply Forall_nil_2].
  - apply (GetChunkGridSpecification_components Sample.uninitialized
             Sample.AllocateArray_data Sample.metadata).
    + apply Forall3_cons; [|apply Forall3_nil].
      unfold field_consistent. cbn. repeat split; lia.
    + apply Forall_cons_2; [reflexivity | apply Forall_nil_2].
Defined.

Lemma GetChunkGridSpecification_inconsistent_witness :
  GetChunkGridSpecification Sample.uninitialized Sample.AllocateArray_data
    Sample.misfit_metadata = Aborted.
Proof.
  apply (GetChunkGridSpecification_inconsistent Sample.uninitialized
           Sample.AllocateArray_data Sample.misfit_metadata 0
           Sample.float32_field Sample.vector_fill);
    [reflexivity | reflexivity | reflexivity | cbn; lia].
Defined.

Lemma SpecGetFillValue_as_is_witness :
  SpecGetFillValue Sample.kInfIndex Sample.kMaxRank Sample.GetFieldIndex
    Sample.transform_valid Sample.output_rank Sample.IndexDomain_of_shape
    Sample.TransformOutputBroadcastableArray Sample.uninitialized
    Sample.spec (false, 0)
  = Done (Value Sample.vector_fill).
Proof.
  apply (SpecGetFillValue_as_is Sample.kInfIndex Sample.kMaxRank
           Sample.GetFieldIndex Sample.transform_valid Sample.output_rank
           Sample.IndexDomain_of_shape
           Sample.TransformOutputBroadcastableArray Sample.uninitialized
           Sample.spec (false, 0) Sample.vector_fill);
    [reflexivity | by right].
Defined.

Lemma SpecGetFillValue_selection_witness :
  SpecGetFillValue_fill_value Sample.GetFieldIndex Sample.spec
  = Done (Value Sample.vector_fill).
Proof.
  apply (SpecGetFillValue_selection Sample.kInfIndex Sample.kMaxRank
           Sample.GetFieldIndex Sample.transform_valid Sample.output_rank
           Sample.IndexDomain_of_shape
           Sample.TransformOutputBroadcastableArray Sample.uninitialized
           Sample.spec (true, 2)).
  by left.
Defined.

Lemma SpecGetFillValue_bound_witness :
  SpecGetFillValue_fill_value Sample.GetFieldIndex
    (GetBoundSpecData Sample.EncodeSelectedField
       (cache Sample.vector_driver) Sample.spec_with_shape
       Sample.vector_metadata 0).2
  = Done (Value Sample.vector_fill).
Proof.
  apply (SpecGetFillValue_bound Sample.GetFieldIndex
           Sample.EncodeSelectedField (cache Sample.vector_driver)
           Sample.spec_with_shape Sample.vector_metadata 0
           Sample.vector_fill); reflexivity.
Defined.

Lemma RegisteredDriver_cache_key_witness :
  RegisteredDriver_EncodeCacheKey "" Sample.Derived_GetBoundSpecData
    Sample.Derived_EncodeCacheKey Sample.EncodeCacheKey_typeid
    Sample.Driver_EncodeCacheKey "bucket/" "key:"
  = RegisteredDriverSpec_EncodeCacheKey Sample.Derived_EncodeCacheKey
      Sample.EncodeCacheKey_typeid
      {| context_binding_state_ := bound; data_ := "bucket/" |} "key:" ∧
  RegisteredDriver_EncodeCacheKey "" Sample.Derived_GetBoundSpecData
    Sample.Derived_EncodeCacheKey Sample.EncodeCacheKey_typeid
    Sample.Driver_EncodeCacheKey "" "key:"
  = Sample.Driver_EncodeCacheKey "" "key:".
Proof.
  split.
  - destruct (RegisteredDriver_cache_key "" Sample.Derived_GetBoundSpecData
                Sample.Derived_EncodeCacheKey Sample.EncodeCacheKey_typeid
                Sample.Driver_EncodeCacheKey "bucket/" "key:")
      as [Hbound _].
    by apply (Hbound {| context_binding_state_ := bound;
                        data_ := "bucket/" |}).
  - destruct (RegisteredDriver_cache_key "" Sample.Derived_GetBoundSpecData
                Sample.Derived_EncodeCacheKey Sample.EncodeCacheKey_typeid
                Sample.Driver_EncodeCacheKey "" "key:")
      as [_ Hunbound].
    by apply (Hunbound (FailedPreconditionError "driver is not open")).
Defined.

Lemma GetFillValue_stored_witness :
  GetFillValue Sample.kInfIndex Sample.IndexDomainBuilder_shape
    Sample.IndexDomainBuilder_Finalize Sample.TransformOutputBroadcastableArray
    Sample.vector_driver (true, 3)
  = Done (Sample.TransformOutputBroadcastableArray (true, 3)
            Sample.vector_fill
            [Sample.kInfIndex + 1; Sample.kInfIndex + 1; 3]).
Proof.
  apply (GetFillValue_stored Sample.kInfIndex Sample.IndexDomainBuilder_shape
           Sample.IndexDomainBuilder_Finalize
           Sample.TransformOutputBroadcastableArray Sample.vector_driver
           (true, 3) Sample.vector_fill Sample.vector_field); reflexivity.
Defined.

Lemma GetChunkGridSpecification_checked_witness :
  ∃ field_layout stored,
    layout_fields (chunk_layout Sample.vector_metadata) !! 0%nat
    = Some field_layout ∧
    fill_value Sample.vector_metadata !! 0%nat = Some stored ∧
    let fill :=
      effective_fill_value Sample.AllocateArray_data Sample.vector_field
        stored in
    (length (array_shape fill) ≤ length (field_shape Sample.vector_field))%nat ∧
    (length (array_shape fill) ≤ length (full_chunk_shape field_layout))%nat ∧
    drop (length (full_chunk_shape field_layout) - length (array_shape fill))
      (full_chunk_shape field_layout) = array_shape fill.
Proof.
  eapply (GetChunkGridSpecification_checked Sample.uninitialized
            Sample.AllocateArray_data Sample.vector_metadata _ 0
            Sample.vector_field); reflexivity.
Defined.
